(** * The product catalogue server of [src/server.js]

    A shallow embedding of the Express application: the JavaScript values that
    travel in requests and records, the built-ins the handlers call
    ([parseInt], [toLowerCase], [includes], [slice], [Math.ceil]), the router's
    walk over the registration stack, and each middleware and handler of the
    file, in registration order.

    Conventions of the embedding.
    - The specification writes the endpoints as [/products...]; the source
      registers them under [/api/products...].  The two are identified.
    - A [request] is a message the JSON parser has let through: the path is
      split in segments, header names are lower-cased, and the body is the
      parsed JSON object; a message with no body is taken with the empty
      object, which is what the parser of Express 4 leaves in [req.body].
      A message the parser refuses is a [Refused] arrival, see [receive].
    - A query parameter is a string, or an array or object when the query
      string repeats or brackets its name.
    - Identifiers and lengths are integers of [Z].  [page] and [limit] are
      JavaScript numbers: integers rounded to the nearest double, the two
      infinities and [NaN]; [-0] is not told apart from [0].  JSON numbers in
      payloads are rationals.
    - Strings are ASCII strings; [toLowerCase] acts on the letters A-Z.
    - Line 72 assigns to the [const] of line 42, which a JavaScript engine
      refuses when the module loads.  The file is read as the application it
      registers, with the array of lines 72-78 as the catalogue at start;
      the theorems that do not name an instance hold for every catalogue. *)

From Stdlib Require Import List String Ascii Bool ZArith QArith Lia Sorted.
Import ListNotations.
Local Open Scope string_scope.
Local Open Scope Z_scope.

(** ** JavaScript values and built-ins *)

Module JS.

(** A value read from a JSON body or stored in a record field.
    [JUndefined] is what a property read gives for an absent key. *)
#[warnings="-register-all"]
Inductive jsval : Type :=
| JUndefined
| JNull
| JBool (b : bool)
| JNum (q : Q)
| JStr (s : string)
| JArr (items : list jsval)
| JObj (props : list (string * jsval)).

(** [!v] is [negb (truthy v)]. *)
Definition truthy (v : jsval) : bool :=
  match v with
  | JUndefined | JNull => false
  | JBool b => b
  | JNum q => negb (Qeq_bool q 0)
  | JStr s => negb (String.eqb s "")
  | JArr _ | JObj _ => true
  end.

(** [v == null] *)
Definition is_nullish (v : jsval) : bool :=
  match v with
  | JUndefined | JNull => true
  | _ => false
  end.

(** [a ?? b] *)
Definition nullish_or (a b : jsval) : jsval :=
  if is_nullish a then b else a.

(** [typeof v === 'number'] *)
Definition is_number (v : jsval) : bool :=
  match v with JNum _ => true | _ => false end.

(** [typeof v === 'boolean'] *)
Definition is_boolean (v : jsval) : bool :=
  match v with JBool _ => true | _ => false end.

(** Truthiness of a header value, which is a string or absent. *)
Definition truthy_str (v : option string) : bool :=
  match v with
  | Some s => negb (String.eqb s "")
  | None => false
  end.

(** *** Strings *)

Definition lower_char (c : ascii) : ascii :=
  let n := nat_of_ascii c in
  if (Nat.leb 65 n && Nat.leb n 90)%bool then ascii_of_nat (n + 32) else c.

Fixpoint toLowerCase (s : string) : string :=
  match s with
  | EmptyString => EmptyString
  | String c r => String (lower_char c) (toLowerCase r)
  end.

(** [s.includes(sub)] *)
Fixpoint includes (s sub : string) : bool :=
  (String.prefix sub s ||
   match s with
   | EmptyString => false
   | String _ r => includes r sub
   end)%bool.

(** *** [parseInt] with no radix argument

    Leading white space is skipped, one sign is read, a [0x] or [0X] prefix
    selects radix 16, and the longest run of digits of the radix is the
    value.  [None] stands for [NaN]. *)

Definition is_space (c : ascii) : bool :=
  let n := nat_of_ascii c in
  ((Nat.leb 9 n && Nat.leb n 13) || Nat.eqb n 32)%bool.

Fixpoint trim_start (s : string) : string :=
  match s with
  | String c r => if is_space c then trim_start r else s
  | EmptyString => s
  end.

Definition digit_value (radix : Z) (c : ascii) : option Z :=
  let n := Z.of_nat (nat_of_ascii c) in
  let v :=
    if (48 <=? n) && (n <=? 57) then Some (n - 48)
    else if (97 <=? n) && (n <=? 122) then Some (n - 87)
    else if (65 <=? n) && (n <=? 90) then Some (n - 55)
    else None in
  match v with
  | Some d => if d <? radix then Some d else None
  | None => None
  end.

(** Reads digits while there are some; [acc] is [None] until the first one. *)
Fixpoint read_digits (radix : Z) (s : string) (acc : option Z) : option Z :=
  match s with
  | EmptyString => acc
  | String c r =>
      match digit_value radix c with
      | Some d =>
          read_digits radix r
            (Some (match acc with Some a => a * radix + d | None => d end))
      | None => acc
      end
  end.

Definition strip_sign (s : string) : Z * string :=
  match s with
  | String "-" r => (-1, r)
  | String "+" r => (1, r)
  | _ => (1, s)
  end.

Definition strip_radix (s : string) : Z * string :=
  match s with
  | String "0" (String "x" r) => (16, r)
  | String "0" (String "X" r) => (16, r)
  | _ => (10, s)
  end.

Definition parseInt_string (s : string) : option Z :=
  let (sign, s1) := strip_sign (trim_start s) in
  let (radix, s2) := strip_radix s1 in
  option_map (Z.mul sign) (read_digits radix s2 None).

(** [parseInt(v)] for a value that may be absent: [parseInt(undefined)] reads
    the string ["undefined"], which has no digit. *)
Definition parseInt (v : option string) : option Z :=
  match v with
  | Some s => parseInt_string s
  | None => None
  end.

(** *** Numbers

    The numbers [parseInt] returns and the arithmetic the listing does on
    them.  A finite value is an integer that a double holds. *)
Inductive jsnum : Type :=
| Finite (n : Z)
| PlusInfinity
| MinusInfinity
| NaN.

(** The nearest integer with a mantissa of 53 bits, ties to even, for
    [m >= 0]. *)
Definition round_mantissa (m : Z) : Z :=
  if m <? 2 ^ 53 then m
  else
    let e := Z.log2 m - 52 in
    let q := Z.shiftr m e in
    let r := m - Z.shiftl q e in
    let half := Z.shiftl 1 (e - 1) in
    let q' := if ((half <? r) || ((r =? half) && Z.odd q))%bool
              then q + 1 else q in
    Z.shiftl q' e.

(** The double nearest to an integer; past the largest double it is an
    infinity. *)
Definition to_double (n : Z) : jsnum :=
  let m := round_mantissa (Z.abs n) in
  if 2 ^ 1024 <=? m
  then (if n <? 0 then MinusInfinity else PlusInfinity)
  else Finite (Z.sgn n * m).

(** [parseInt(v)] as the number it returns. *)
Definition parseInt_number (v : option string) : jsnum :=
  match parseInt v with
  | Some n => to_double n
  | None => NaN
  end.

(** [x || d] for a number [x]: [NaN] and zero are falsy. *)
Definition number_or (x d : jsnum) : jsnum :=
  match x with
  | NaN | Finite 0 => d
  | _ => x
  end.

(** [x + y] *)
Definition num_add (x y : jsnum) : jsnum :=
  match x, y with
  | NaN, _ | _, NaN => NaN
  | Finite a, Finite b => to_double (a + b)
  | PlusInfinity, MinusInfinity | MinusInfinity, PlusInfinity => NaN
  | PlusInfinity, _ | _, PlusInfinity => PlusInfinity
  | MinusInfinity, _ | _, MinusInfinity => MinusInfinity
  end.

(** [x - y] *)
Definition num_sub (x y : jsnum) : jsnum :=
  num_add x match y with
            | Finite b => Finite (- b)
            | PlusInfinity => MinusInfinity
            | MinusInfinity => PlusInfinity
            | NaN => NaN
            end.

Definition num_sign (x : jsnum) : Z :=
  match x with
  | Finite a => Z.sgn a
  | PlusInfinity => 1
  | MinusInfinity => -1
  | NaN => 0
  end.

(** [x * y] *)
Definition num_mul (x y : jsnum) : jsnum :=
  match x, y with
  | NaN, _ | _, NaN => NaN
  | Finite a, Finite b => to_double (a * b)
  | _, _ =>
      match num_sign x * num_sign y with
      | 0 => NaN
      | Zpos _ => PlusInfinity
      | Zneg _ => MinusInfinity
      end
  end.

(** [n === parseInt(v)] for a number [n]; [NaN] equals nothing. *)
Definition strict_eq_parsed (n : Z) (parsed : option Z) : bool :=
  match parsed with
  | Some m => n =? m
  | None => false
  end.

(** *** Arrays *)

(** The index [Array.prototype.slice] and [splice] derive from a relative
    position: negative positions count from the end, and the result is clamped
    to the array. *)
Definition relative_index (len k : Z) : Z :=
  if k <? 0 then Z.max (len + k) 0 else Z.min k len.

(** [xs.slice(start, end)] *)
Definition slice {A : Type} (xs : list A) (start stop : Z) : list A :=
  let len := Z.of_nat (List.length xs) in
  let from := relative_index len start in
  let to := relative_index len stop in
  firstn (Z.to_nat (to - from)) (skipn (Z.to_nat from) xs).

(** The same for a position that is any number: [NaN] counts as 0, and the
    infinities as the two ends. *)
Definition relative_index_of (len : Z) (k : jsnum) : Z :=
  match k with
  | Finite z => relative_index len z
  | PlusInfinity => len
  | MinusInfinity | NaN => 0
  end.

Definition slice_of {A : Type} (xs : list A) (start stop : jsnum) : list A :=
  let len := Z.of_nat (List.length xs) in
  let from := relative_index_of len start in
  let to := relative_index_of len stop in
  firstn (Z.to_nat (to - from)) (skipn (Z.to_nat from) xs).

(** [Math.ceil(a / b)] on integers, [b] not zero. *)
Definition ceil_div (a b : Z) : Z := - ((- a) / b).

(** [Math.ceil(a / b)] for the length [a] of an array and a number [b].  An
    array holds fewer than [2 ^ 32] elements, and for such [a] the rounded
    quotient has the ceiling of the exact one. *)
Definition ceil_quotient (a : Z) (b : jsnum) : jsnum :=
  match b with
  | Finite 0 => if a =? 0 then NaN else PlusInfinity
  | Finite d => Finite (ceil_div a d)
  | PlusInfinity | MinusInfinity => Finite 0
  | NaN => NaN
  end.

End JS.

Import JS.

(** ** The catalogue and the HTTP vocabulary *)

(** A record of the [products] array.  The live create handler writes the six
    keys below and nothing else; [id] is always a number there. *)
Record product : Type := mkProduct {
  id : Z;
  name : jsval;
  description : jsval;
  price : jsval;
  category : jsval;
  inStock : jsval
}.

Definition store : Type := list product.

(** The array assigned at lines 72-78. *)
Definition products0 : store :=
  [ mkProduct 1 (JStr "Laptop") (JStr "15-inch screen")
      (JNum (1899999 # 100)) (JStr "Electronics") (JBool true);
    mkProduct 2 (JStr "Mouse") (JStr "Wireless mouse")
      (JNum (39999 # 100)) (JStr "Accessories") (JBool true);
    mkProduct 3 (JStr "Keyboard") (JStr "Mechanical RGB keyboard")
      (JNum (129999 # 100)) (JStr "Accessories") (JBool true);
    mkProduct 4 (JStr "Headphones") (JStr "Noise cancelling")
      (JNum (259999 # 100)) (JStr "Electronics") (JBool false);
    mkProduct 5 (JStr "Monitor") (JStr "27-inch display")
      (JNum (349999 # 100)) (JStr "Electronics") (JBool true) ].

Inductive verb : Type :=
| GET | POST | PUT | DELETE | HEAD | OPTIONS | PATCH.

Definition verb_eqb (a b : verb) : bool :=
  match a, b with
  | GET, GET | POST, POST | PUT, PUT | DELETE, DELETE
  | HEAD, HEAD | OPTIONS, OPTIONS | PATCH, PATCH => true
  | _, _ => false
  end.

Fixpoint assoc {A : Type} (k : string) (l : list (string * A)) : option A :=
  match l with
  | [] => None
  | (k', v) :: r => if String.eqb k k' then Some v else assoc k r
  end.

(** A parameter of [req.query]: a string, or an array or an object when the
    query string repeats the name or writes it with brackets. *)
#[warnings="-register-all"]
Inductive qval : Type :=
| QStr (s : string)
| QArr (items : list qval)
| QObj (props : list (string * qval)).

(** [String(v)], which [parseInt] applies to its argument: an array joins
    its elements with commas. *)
Fixpoint query_text (v : qval) : string :=
  match v with
  | QStr s => s
  | QArr items =>
      (fix join (vs : list qval) : string :=
         match vs with
         | [] => ""
         | [x] => query_text x
         | x :: rest => query_text x ++ "," ++ join rest
         end) items
  | QObj _ => "[object Object]"
  end.

(** Truthiness of a parameter that may be absent: only the empty string is
    falsy. *)
Definition truthy_query (v : option qval) : bool :=
  match v with
  | Some (QStr s) => negb (String.eqb s "")
  | Some _ => true
  | None => false
  end.

(** A parameter that is absent or a string. *)
Definition plain_parameter (v : option qval) : bool :=
  match v with
  | Some (QArr _) | Some (QObj _) => false
  | _ => true
  end.

Record request : Type := mkRequest {
  method : verb;
  path : list string;               (* segments between the slashes, a
                                       trailing slash dropped *)
  headers : list (string * string); (* names in lower case *)
  query : list (string * qval);
  body : list (string * jsval);
  params : list (string * string)   (* filled in by the router *)
}.

(** [o.k] on a parsed JSON object: an absent key reads as [undefined]. *)
Definition property (o : list (string * jsval)) (k : string) : jsval :=
  match assoc k o with
  | Some v => v
  | None => JUndefined
  end.

(** [req.body.k] *)
Definition body_get (req : request) (k : string) : jsval :=
  property (body req) k.

Definition with_params (req : request) (ps : list (string * string)) : request :=
  mkRequest (method req) (path req) (headers req) (query req) (body req) ps.

(** An [Error] object: [statusCode] is set by the three classes of the file
    and absent on the errors the runtime throws. *)
Record jserror : Type := mkError {
  err_name : string;
  err_message : string;
  statusCode : option Z
}.

Definition NotFoundError (message : string) : jserror :=
  mkError "NotFoundError" message (Some 404).

Definition ValidationError (message : string) : jserror :=
  mkError "ValidationError" message (Some 400).


(** The [TypeError] of a method call on a value that has no such method.  The
    text of the message is the engine's. *)
Definition TypeError (message : string) : jserror :=
  mkError "TypeError" message None.

(** The [RangeError] that refuses an HTTP status outside 100..999.  The
    text of the message is the library's, and is abridged here. *)
Definition RangeError (message : string) : jserror :=
  mkError "RangeError" message None.

(** The objects the application hands to [res.json], before they are
    written out: [JSON.stringify] writes an infinity or [NaN] as [null]. *)
Inductive payload : Type :=
| ListPage (page limit totalPages : jsnum) (totalItems : Z)
    (products : list product)
| SearchHits (count : Z) (results : list product)
| OneProduct (p : product)
| AllProducts (ps : list product)
| Message (message : string)
| ErrorText (error : string)
| Deleted (message : string) (deletedProduct : list product)
| DeletedLate (message : string) (deleted : list product)
| Stats (totalProducts : Z) (countByCategory : list (string * Z))
| ErrorEnvelope (status errorType message : string).

Record response : Type := mkResponse {
  status : Z;
  sent : payload
}.

(** [res.json(x)] and [res.status(n).json(x)] *)
Definition json (x : payload) : response := mkResponse 200 x.
Definition status_json (n : Z) (x : payload) : response := mkResponse n x.

(** [res.status(n).json(x)] for a status that is computed: one outside
    100..999 is refused with a [RangeError] and nothing is sent. *)
Definition send (r : response) : jserror + response :=
  if ((100 <=? status r) && (status r <=? 999))%bool then inr r
  else inl (RangeError "Invalid status code").

(** ** The router

    [app.use] and the verb methods push layers on one stack, and a request
    walks the stack in registration order.  A middleware calls [next()],
    replies, or hands an error on; the last function of every route of the
    file takes no [next] it could call without an error, so a route handler
    replies, fails, or leaves the request pending.  Middleware of the file
    never reads [products], hence its type. *)

Inductive mw_result : Type :=
| Next
| Reply (r : response)
| Raise (e : jserror).

Definition middleware : Type := request -> mw_result.

Inductive h_result : Type :=
| Done (r : response)
| Fail (e : jserror)      (* [next(err)], or a throw the router catches *)
| Pending.                (* returns with no reply and no [next] *)

Definition handler : Type := request -> store -> store * h_result.

(** An [async] function of the file replies, calls [next(err)], or throws,
    which rejects the promise it returns. *)
Inductive async_result : Type :=
| Replied (r : response)
| Passed (e : jserror)
| Rejected (e : jserror).

Definition async_fn : Type := request -> store -> store * async_result.

Inductive segment : Type :=
| Lit (s : string)
| Param (name : string).

(** Every layer carries the source line of its registration. *)
Inductive layer : Type :=
| Use (line : nat) (mw : middleware)
| Route (line : nat) (v : verb) (pattern : list segment)
        (chain : list middleware) (h : handler)
| UseError (line : nat) (translate : jserror -> jserror + response).

Definition line_of (l : layer) : nat :=
  match l with
  | Use n _ | Route n _ _ _ _ | UseError n _ => n
  end.

(** Express matches literal segments without regard to case, and a parameter
    takes one non-empty segment. *)
Fixpoint match_path (pat : list segment) (p : list string)
  : option (list (string * string)) :=
  match pat, p with
  | [], [] => Some []
  | Lit s :: pat', x :: p' =>
      if String.eqb (toLowerCase x) (toLowerCase s)
      then match_path pat' p' else None
  | Param n :: pat', x :: p' =>
      if String.eqb x "" then None
      else option_map (cons (n, x)) (match_path pat' p')
  | _, _ => None
  end.

(** A [GET] route also serves [HEAD]. *)
Definition handles (route_verb m : verb) : bool :=
  (verb_eqb m route_verb || (verb_eqb m HEAD && verb_eqb route_verb GET))%bool.

Definition route_match (v : verb) (pat : list segment) (req : request)
  : option (list (string * string)) :=
  if handles v (method req) then match_path pat (path req) else None.

(** What became of a request. [Unanswered e] is the end of the stack, where
    Express's own final handler takes over. *)
Inductive outcome : Type :=
| Sent (r : response)
| NoReply
| Unanswered (e : option jserror).

Record result : Type := mkResult {
  final_store : store;
  reply : outcome;
  visited : list nat      (* lines of the layers that ran, in order *)
}.

Definition visit (n : nat) (r : result) : result :=
  mkResult (final_store r) (reply r) (n :: visited r).

(** With an error in hand the router skips to the next error middleware. *)
Fixpoint run_error (stack : list layer) (e : jserror) (st : store) : result :=
  match stack with
  | [] => mkResult st (Unanswered (Some e)) []
  | UseError n translate :: rest =>
      match translate e with
      | inr r => mkResult st (Sent r) [n]
      | inl thrown => visit n (run_error rest thrown st)
      end
  | _ :: rest => run_error rest e st
  end.

Fixpoint run_chain (chain : list middleware) (req : request) : mw_result :=
  match chain with
  | [] => Next
  | mw :: rest =>
      match mw req with
      | Next => run_chain rest req
      | other => other
      end
  end.

Fixpoint run (stack : list layer) (req : request) (st : store) : result :=
  match stack with
  | [] => mkResult st (Unanswered None) []
  | Use n mw :: rest =>
      match mw req with
      | Next => visit n (run rest req st)
      | Reply r => mkResult st (Sent r) [n]
      | Raise e => visit n (run_error rest e st)
      end
  | Route n v pat chain h :: rest =>
      match route_match v pat req with
      | None => run rest req st
      | Some ps =>
          let req' := with_params req ps in
          match run_chain chain req' with
          | Reply r => mkResult st (Sent r) [n]
          | Raise e => visit n (run_error rest e st)
          | Next =>
              match h req' st with
              | (st', Done r) => mkResult st' (Sent r) [n]
              | (st', Fail e) => visit n (run_error rest e st')
              | (st', Pending) => mkResult st' NoReply [n]
              end
          end
      end
  | UseError _ _ :: rest => run rest req st
  end.

(** ** The middleware and handlers of the file, in source order *)

Definition len {A : Type} (xs : list A) : Z := Z.of_nat (List.length xs).

(** Lines 61-63: [Promise.resolve(fn(req, res, next)).catch(next)] hands a
    rejection to [next]. *)
Definition asyncHandler (fn : async_fn) : handler := fun req products =>
  match fn req products with
  | (st', Replied r) => (st', Done r)
  | (st', Passed e) => (st', Fail e)
  | (st', Rejected e) => (st', Fail e)
  end.

(** [express.json()] (lines 5 and 39) on a message it lets through: the
    body is parsed.  What it refuses never becomes a [request]; see
    [receive]. *)
Definition json_parser : middleware := fun _ => Next.

(** [logger] (lines 31-34); the console is not modelled. *)
Definition logger : middleware := fun _ => Next.

(** [v.toLowerCase()]: a string answers, anything else throws. [what] is the
    source text of the receiver, which the engine quotes in its message. *)
Definition lower_of (what : string) (v : jsval) : jserror + string :=
  match v with
  | JStr s => inr (toLowerCase s)
  | JUndefined =>
      inl (TypeError "Cannot read properties of undefined (reading 'toLowerCase')")
  | JNull =>
      inl (TypeError "Cannot read properties of null (reading 'toLowerCase')")
  | _ => inl (TypeError (what ++ ".toLowerCase is not a function"))
  end.

(** [xs.filter(f)] for a callback that may throw: the first throw ends it. *)
Fixpoint filter_try {A : Type} (f : A -> jserror + bool) (xs : list A)
  : jserror + list A :=
  match xs with
  | [] => inr []
  | x :: rest =>
      match f x with
      | inl e => inl e
      | inr keep =>
          match filter_try f rest with
          | inl e => inl e
          | inr ys => inr (if keep then x :: ys else ys)
          end
      end
  end.

(** [p.category.toLowerCase() === req.query.category.toLowerCase()]: the
    left side is evaluated first, and a parameter that is not a string has
    no [toLowerCase]. *)
Definition category_is (wanted : qval) (p : product) : jserror + bool :=
  match lower_of "p.category" (category p) with
  | inl e => inl e
  | inr s =>
      match wanted with
      | QStr c => inr (String.eqb s (toLowerCase c))
      | _ =>
          inl (TypeError "req.query.category.toLowerCase is not a function")
      end
  end.

(** [parseInt(req.query.k)] *)
Definition query_number (req : request) (k : string) : jsnum :=
  parseInt_number (option_map query_text (assoc k (query req))).

(** Lines 84-108. *)
Definition list_products : async_fn := fun req products =>
  let filtered :=
    if truthy_query (assoc "category" (query req))
    then match assoc "category" (query req) with
         | Some wanted => filter_try (category_is wanted) products
         | None => inr products
         end
    else inr products in
  match filtered with
  | inl e => (products, Rejected e)
  | inr results =>
      let page := number_or (query_number req "page") (Finite 1) in
      let limit := number_or (query_number req "limit") (Finite 2) in
      let start := num_mul (num_sub page (Finite 1)) limit in
      let stop := num_add start limit in
      let paginated := slice_of results start stop in
      let totalPages := ceil_quotient (len results) limit in
      (products,
       Replied (json (ListPage page limit totalPages (len results) paginated)))
  end.

(** [p.name.toLowerCase().includes(name.toLowerCase())]: the receiver is
    evaluated before the argument, and a parameter that is not a string has
    no [toLowerCase]. *)
Definition name_includes (keyword : qval) (p : product) : jserror + bool :=
  match lower_of "p.name" (name p) with
  | inl e => inl e
  | inr s =>
      match keyword with
      | QStr k => inr (includes s (toLowerCase k))
      | _ => inl (TypeError "name.toLowerCase is not a function")
      end
  end.

(** Lines 111-122. *)
Definition search_products : async_fn := fun req products =>
  match assoc "name" (query req) with
  | None => (products, Passed (ValidationError "Please provide a search keyword"))
  | Some keyword =>
      if negb (truthy_query (Some keyword))
      then (products, Passed (ValidationError "Please provide a search keyword"))
      else
        match filter_try (name_includes keyword) products with
        | inl e => (products, Rejected e)
        | inr results =>
            if len results =? 0
            then (products,
                  Rejected (NotFoundError "No products match your search"))
            else (products, Replied (json (SearchHits (len results) results)))
        end
  end.

(** [p => p.id === parseInt(req.params.id)] *)
Definition has_param_id (req : request) (p : product) : bool :=
  strict_eq_parsed (id p) (parseInt (assoc "id" (params req))).

(** Lines 126-132. *)
Definition get_product : handler := fun req products =>
  match find (has_param_id req) products with
  | None => (products, Done (status_json 404 (Message "Product not found")))
  | Some product => (products, Done (json (OneProduct product)))
  end.

Fixpoint last_product (products : store) : option product :=
  match products with
  | [] => None
  | [p] => Some p
  | _ :: rest => last_product rest
  end.

(** [products.length ? products[products.length - 1].id + 1 : 1] *)
Definition next_id (products : store) : Z :=
  match last_product products with
  | Some p => id p + 1
  | None => 1
  end.

(** Lines 135-147. *)
Definition create_product : handler := fun req products =>
  let newProduct :=
    mkProduct (next_id products)
      (body_get req "name") (body_get req "description")
      (body_get req "price") (body_get req "category")
      (body_get req "inStock") in
  ((products ++ [newProduct])%list, Done (status_json 201 (OneProduct newProduct))).

(** Lines 157-161: the five assignments on the found record. *)
Definition overlay (req : request) (p : product) : product :=
  mkProduct (id p)
    (nullish_or (body_get req "name") (name p))
    (nullish_or (body_get req "description") (description p))
    (nullish_or (body_get req "price") (price p))
    (nullish_or (body_get req "category") (category p))
    (nullish_or (body_get req "inStock") (inStock p)).

(** The array after the record [find] returned has been changed in place. *)
Fixpoint update_first (f : product -> bool) (g : product -> product)
  (products : store) : store :=
  match products with
  | [] => []
  | p :: rest => if f p then g p :: rest else p :: update_first f g rest
  end.

(** Lines 150-164. *)
Definition update_product : handler := fun req products =>
  match find (has_param_id req) products with
  | None => (products, Done (status_json 404 (Message "Product not found")))
  | Some product =>
      (update_first (has_param_id req) (overlay req) products,
       Done (json (OneProduct (overlay req product))))
  end.

Fixpoint findIndex {A : Type} (f : A -> bool) (xs : list A) : option nat :=
  match xs with
  | [] => None
  | x :: rest => if f x then Some O else option_map S (findIndex f rest)
  end.

(** [xs.splice(i, 1)] for an index of the array: the removed elements and
    what is left. *)
Definition splice_one {A : Type} (i : nat) (xs : list A) : list A * list A :=
  (firstn 1 (skipn i xs), (firstn i xs ++ skipn (S i) xs)%list).

(** Lines 167-175. *)
Definition delete_product : handler := fun req products =>
  match findIndex (has_param_id req) products with
  | None => (products, Done (status_json 404 (Message "Product not found")))
  | Some productIndex =>
      let (deletedProduct, remaining) := splice_one productIndex products in
      (remaining,
       Done (json (Deleted "Product deleted successfully" deletedProduct)))
  end.

(** The key a category becomes in [acc[p.category]].  Exact for strings; the
    other primitives get their usual names, and numbers, arrays and objects
    are not told apart. *)
Definition property_key (v : jsval) : string :=
  match v with
  | JStr s => s
  | JUndefined => "undefined"
  | JNull => "null"
  | JBool true => "true"
  | JBool false => "false"
  | JNum _ => "[number]"
  | JArr _ => "[array]"
  | JObj _ => "[object Object]"
  end.

(** [acc[k] = (acc[k] || 0) + 1] on an object that started empty; keys that
    [Object.prototype] already answers for are outside the model. *)
Fixpoint bump (k : string) (acc : list (string * Z)) : list (string * Z) :=
  match acc with
  | [] => [(k, 1)]
  | (k', n) :: rest =>
      if String.eqb k k' then (k', n + 1) :: rest else (k', n) :: bump k rest
  end.

(** [products.reduce((acc, p) => ..., {})] *)
Definition count_by_category (products : store) : list (string * Z) :=
  fold_left (fun acc p => bump (property_key (category p)) acc) products [].

(** Lines 178-190. *)
Definition product_stats : async_fn := fun _ products =>
  (products, Replied (json (Stats (len products) (count_by_category products)))).

(** Line 201. *)
Definition VALID_API_KEY : string := "12345".

(** Lines 203-207. *)
Definition authenticate : middleware := fun req =>
  let apiKey := assoc "x-api-key" (headers req) in
  if (truthy_str apiKey &&
      match apiKey with
      | Some k => String.eqb k VALID_API_KEY
      | None => false
      end)%bool
  then Next
  else Reply (status_json 401 (ErrorText "Unauthorized: invalid or missing API key")).

(** Lines 209-222. *)
Definition validateProduct : middleware := fun req =>
  let name := body_get req "name" in
  let description := body_get req "description" in
  let price := body_get req "price" in
  let category := body_get req "category" in
  let inStock := body_get req "inStock" in
  if (negb (truthy name) || negb (truthy description) || is_nullish price
      || negb (truthy category) || is_nullish inStock)%bool
  then Reply (status_json 400 (ErrorText "All product fields are required"))
  else if negb (is_number price)
  then Reply (status_json 400 (ErrorText "Price must be a number"))
  else if negb (is_boolean inStock)
  then Reply (status_json 400 (ErrorText "inStock must be boolean"))
  else Next.

(** *** The registrations after [app.use(authenticate)]

    These handlers spread or assign the whole body.  A body that carries keys
    other than the six of [product], or an [id] that is not an integer, has no
    image in the record: the handlers are embedded up to that. *)

Definition as_integer (v : jsval) : option Z :=
  match v with
  | JNum q => if (Zpos (Qden (Qred q)) =? 1) then Some (Qnum (Qred q)) else None
  | _ => None
  end.

(** Line 227-229: the body of the handler is a comment. *)
Definition post_stub : handler := fun _ products => (products, Pending).

(** Lines 234-236. *)
Definition dump_products : handler := fun _ products =>
  (products, Done (json (AllProducts products))).

(** Lines 239-243. *)
Definition get_product_late : handler := fun req products =>
  match find (has_param_id req) products with
  | None => (products, Done (status_json 404 (ErrorText "Product not found")))
  | Some product => (products, Done (json (OneProduct product)))
  end.

(** Lines 246-250: [{ id: products.length + 1, ...req.body }]. *)
Definition create_product_late : handler := fun req products =>
  let newProduct :=
    mkProduct
      (match as_integer (body_get req "id") with
       | Some n => n
       | None => len products + 1
       end)
      (body_get req "name") (body_get req "description")
      (body_get req "price") (body_get req "category")
      (body_get req "inStock") in
  ((products ++ [newProduct])%list,
   Done (status_json 201 (OneProduct newProduct))).

(** A key of the body replaces the field; JSON has no [undefined], so a key
    that is present never reads as [JUndefined]. *)
Definition assigned (v old : jsval) : jsval :=
  match v with
  | JUndefined => old
  | _ => v
  end.

(** [Object.assign(product, req.body)] *)
Definition assign_body (req : request) (p : product) : product :=
  mkProduct
    (match as_integer (body_get req "id") with
     | Some n => n
     | None => id p
     end)
    (assigned (body_get req "name") (name p))
    (assigned (body_get req "description") (description p))
    (assigned (body_get req "price") (price p))
    (assigned (body_get req "category") (category p))
    (assigned (body_get req "inStock") (inStock p)).

(** Lines 253-258. *)
Definition update_product_late : handler := fun req products =>
  match find (has_param_id req) products with
  | None => (products, Done (status_json 404 (ErrorText "Product not found")))
  | Some product =>
      (update_first (has_param_id req) (assign_body req) products,
       Done (json (OneProduct (assign_body req product))))
  end.

(** Lines 261-266. *)
Definition delete_product_late : handler := fun req products =>
  match findIndex (has_param_id req) products with
  | None => (products, Done (status_json 404 (ErrorText "Product not found")))
  | Some idx =>
      let (deleted, remaining) := splice_one idx products in
      (remaining, Done (json (DeletedLate "Product deleted" deleted)))
  end.

(** Lines 272-274. *)
Definition not_found : middleware := fun _ =>
  Raise (NotFoundError "Route not found").

(** Lines 280-285: the status and the body the translator computes. *)
Definition translate_error (err : jserror) : response :=
  let code :=
    match statusCode err with
    | Some c => if c =? 0 then 500 else c
    | None => 500
    end in
  status_json code
    (ErrorEnvelope "error"
       (if String.eqb (err_name err) "" then "Error" else err_name err)
       (if String.eqb (err_message err) "" then "Internal Server Error"
        else err_message err)).

(** Lines 276-286: the translator hands what it computed to
    [res.status(statusCode).json(...)]. *)
Definition error_translator (err : jserror) : jserror + response :=
  send (translate_error err).

(** ** The application *)

Definition products_path : list segment := [Lit "api"; Lit "products"].
Definition search_path : list segment := [Lit "api"; Lit "products"; Lit "search"].
Definition stats_path : list segment := [Lit "api"; Lit "products"; Lit "stats"].
Definition product_path : list segment := [Lit "api"; Lit "products"; Param "id"].

(** The stack as the file builds it, top to bottom. *)
Definition app : list layer :=
  [ Use 5 json_parser;
    Use 35 logger;
    Use 39 json_parser;
    Route 84 GET products_path [] (asyncHandler list_products);
    Route 111 GET search_path [] (asyncHandler search_products);
    Route 126 GET product_path [] get_product;
    Route 135 POST products_path [] create_product;
    Route 150 PUT product_path [] update_product;
    Route 167 DELETE product_path [] delete_product;
    Route 178 GET stats_path [] (asyncHandler product_stats);
    Use 224 authenticate;
    Route 227 POST products_path [validateProduct] post_stub;
    Route 234 GET products_path [] dump_products;
    Route 239 GET product_path [] get_product_late;
    Route 246 POST products_path [authenticate; validateProduct] create_product_late;
    Route 253 PUT product_path [authenticate; validateProduct] update_product_late;
    Route 261 DELETE product_path [authenticate] delete_product_late;
    Use 272 not_found;
    UseError 276 error_translator ].

(** One request against the catalogue. *)
Definition handle (req : request) (products : store) : result :=
  run app req products.

(** The catalogue after a sequence of requests. *)
Definition serve (reqs : list request) (products : store) : store :=
  fold_left (fun st req => final_store (handle req st)) reqs products.

(** A request as a client states it: no route parameters yet. *)
Definition client_request (m : verb) (p : list string)
  (hs : list (string * string)) (qs : list (string * qval))
  (b : list (string * jsval)) : request :=
  mkRequest m p hs qs b [].



(** ** Reading the stack

    What [handle] comes to for each verb and shape of path, as a function the
    theorems below share: a request is answered by the first of the six
    routes registered before [app.use(authenticate)] whose verb and pattern
    match it, and otherwise by [authenticate], the not-found middleware and
    the error translator.  [handle_respond] proves the reading right. *)

(** The answer of a route registered before the gate, with bare handler [h]
    at line [n], once the router has bound the parameters [ps]. *)
Definition translated (before : list nat) (e : jserror) (products : store)
  : result :=
  mkResult products
    match error_translator e with
    | inr r => Sent r
    | inl thrown => Unanswered (Some thrown)
    end
    (before ++ [276%nat])%list.

Definition answered_by (n : nat) (h : handler) (req : request)
  (ps : list (string * string)) (products : store) : result :=
  match h (with_params req ps) products with
  | (st', Done r) => mkResult st' (Sent r) [5; 35; 39; n]%nat
  | (st', Fail e) => translated [5; 35; 39; n]%nat e st'
  | (st', Pending) => mkResult st' NoReply [5; 35; 39; n]%nat
  end.

(** The four path patterns of the file tell these shapes of path apart. *)
Inductive path_kind : Type :=
| Collection                  (* /api/products *)
| Search (seg : string)       (* /api/products/search *)
| Statistics (seg : string)   (* /api/products/stats *)
| Item (seg : string)         (* /api/products/<anything else> *)
| Elsewhere.

Definition is_lit (s x : string) : bool := String.eqb (toLowerCase x) s.

Definition shape (p : list string) : path_kind :=
  match p with
  | [a; b] =>
      if (is_lit "api" a && is_lit "products" b)%bool then Collection
      else Elsewhere
  | [a; b; c] =>
      if (is_lit "api" a && is_lit "products" b)%bool then
        if is_lit "search" c then Search c
        else if is_lit "stats" c then Statistics c
        else if String.eqb c "" then Elsewhere
        else Item c
      else Elsewhere
  | _ => Elsewhere
  end.

(** The registrations a request matches, in registration order. *)
Definition matches (req : request) (l : layer) : bool :=
  match l with
  | Route _ v pat _ _ =>
      match route_match v pat req with Some _ => true | None => false end
  | _ => false
  end.

Definition matching_routes (req : request) : list layer :=
  filter (matches req) app.

Definition segment_eqb (a b : segment) : bool :=
  match a, b with
  | Lit x, Lit y | Param x, Param y => String.eqb x y
  | _, _ => false
  end.

Fixpoint pattern_eqb (a b : list segment) : bool :=
  match a, b with
  | [], [] => true
  | x :: a', y :: b' => (segment_eqb x y && pattern_eqb a' b')%bool
  | _, _ => false
  end.

(** The patterns of the file that a path of each shape matches. *)
Definition patterns_of (k : path_kind) : list (list segment) :=
  match k with
  | Collection => [products_path]
  | Search _ => [search_path; product_path]
  | Statistics _ => [stats_path; product_path]
  | Item _ => [product_path]
  | Elsewhere => []
  end.

(** [matches] through the verb and the shape of the path alone. *)
Definition accepts (m : verb) (k : path_kind) (l : layer) : bool :=
  match l with
  | Route _ v pat _ _ =>
      (handles v m && existsb (pattern_eqb pat) (patterns_of k))%bool
  | _ => false
  end.

(** What is left once no route registered before [app.use(authenticate)]
    has matched: the gate, then the not-found middleware and the translator. *)
Definition gate (req : request) (products : store) : result :=
  match authenticate req with
  | Next =>
      translated [5; 35; 39; 224; 272]%nat (NotFoundError "Route not found")
        products
  | Reply r => mkResult products (Sent r) [5; 35; 39; 224]%nat
  | Raise e => translated [5; 35; 39; 224]%nat e products
  end.

(** The stack read by verb and shape of path. *)
Definition respond (m : verb) (k : path_kind) (req : request)
  (products : store) : result :=
  match m, k with
  | (GET | HEAD), Collection =>
      answered_by 84 (asyncHandler list_products) req [] products
  | (GET | HEAD), Search _ =>
      answered_by 111 (asyncHandler search_products) req [] products
  | (GET | HEAD), (Statistics seg | Item seg) =>
      answered_by 126 get_product req [("id", seg)] products
  | POST, Collection =>
      answered_by 135 create_product req [] products
  | PUT, (Search seg | Statistics seg | Item seg) =>
      answered_by 150 update_product req [("id", seg)] products
  | DELETE, (Search seg | Statistics seg | Item seg) =>
      answered_by 167 delete_product req [("id", seg)] products
  | _, _ => gate req products
  end.

Definition is_route (l : layer) : bool :=
  match l with Route _ _ _ _ _ => true | _ => false end.

(** The lines of route registrations among the layers a request ran. *)
Definition routes_run (r : result) : list nat :=
  filter (fun n => existsb (Nat.eqb n) (map line_of (filter is_route app)))
    (visited r).

(** The registrations of the file that repeat, or are covered by, an earlier
    one: [/stats] after [/:id], and the six after [app.use(authenticate)]. *)
Definition shadowed_lines : list nat := [178; 227; 234; 239; 246; 253; 261]%nat.

(** The application with [l] as its only route: the three opening
    middleware, [l], and the error translator. *)
Definition alone (l : layer) : list layer :=
  [ Use 5 json_parser; Use 35 logger; Use 39 json_parser; l;
    UseError 276 error_translator ].

(** ** Requests used as instances *)

Definition with_key : list (string * string) := [("x-api-key", VALID_API_KEY)].

Definition pen_body : list (string * jsval) :=
  [ ("name", JStr "Pen"); ("description", JStr "Ballpoint, blue");
    ("price", JNum (19 # 2)); ("category", JStr "Stationery");
    ("inStock", JBool true) ].

Definition pen (n : Z) : product :=
  mkProduct n (JStr "Pen") (JStr "Ballpoint, blue") (JNum (19 # 2))
    (JStr "Stationery") (JBool true).

Definition laptop : product :=
  mkProduct 1 (JStr "Laptop") (JStr "15-inch screen")
    (JNum (1899999 # 100)) (JStr "Electronics") (JBool true).

Definition monitor : product :=
  mkProduct 5 (JStr "Monitor") (JStr "27-inch display")
    (JNum (349999 # 100)) (JStr "Electronics") (JBool true).

Definition blank (n : Z) : product :=
  mkProduct n JUndefined JUndefined JUndefined JUndefined JUndefined.

Definition unauthorized : response :=
  status_json 401 (ErrorText "Unauthorized: invalid or missing API key").

Definition route_not_found : response :=
  status_json 404 (ErrorEnvelope "error" "NotFoundError" "Route not found").

Definition product_not_found : response :=
  status_json 404 (Message "Product not found").

(** ** Vocabulary of the statements *)

(** A partial update of one field: a supplied value that is neither absent
    nor [null] becomes the new value, and otherwise the old value stays. *)
Definition overlays (supplied old new : jsval) : Prop :=
  (is_nullish supplied = false -> new = supplied) /\
  (is_nullish supplied = true -> new = old).

(** [typeof v === 'string'] *)
Definition is_string (v : jsval) : bool :=
  match v with JStr _ => true | _ => false end.

(** A record whose name contains the keyword, letter case aside. *)
Definition name_contains (keyword : string) (p : product) : bool :=
  match name p with
  | JStr s => includes (toLowerCase s) (toLowerCase keyword)
  | _ => false
  end.

(** A record whose category is the given one, letter case aside. *)
Definition category_equals (c : string) (p : product) : bool :=
  match category p with
  | JStr s => String.eqb (toLowerCase s) (toLowerCase c)
  | _ => false
  end.

(** The elements of a list whose index [i], counted from [i0], satisfies
    [a <= i < b]: the slice the specification writes [[a, b)]. *)
Fixpoint from_index {A : Type} (i0 a b : Z) (xs : list A) : list A :=
  match xs with
  | [] => []
  | x :: rest =>
      if ((a <=? i0) && (i0 <? b))%bool
      then x :: from_index (i0 + 1) a b rest
      else from_index (i0 + 1) a b rest
  end.

Definition interval_slice {A : Type} (xs : list A) (a b : Z) : list A :=
  from_index 0 a b xs.

(** The ids grow along the array. *)
Definition increasing (products : store) : Prop :=
  StronglySorted Z.lt (map id products).

(** The number of records whose category reads as the key [k]. *)
Definition count_category (k : string) (products : store) : Z :=
  len (filter (fun p => String.eqb k (property_key (category p))) products).

(** The test [find] applies for a path segment [seg] bound to [:id]. *)
Definition has_id_of (seg : string) (p : product) : bool :=
  strict_eq_parsed (id p) (parseInt_string seg).

(** The number written by the longest run of decimal digits that opens a
    string, if it opens with one: the parse the specification words as a
    decimal-prefix parse. *)
Definition decimal_prefix (s : string) : option Z := read_digits 10 s None.

(** A string that opens with a decimal digit and not with [0x] or [0X]. *)
Definition opens_in_decimal (s : string) : bool :=
  match s with
  | String c r =>
      match digit_value 10 c with
      | Some _ =>
          match strip_radix s with
          | (16, _) => false
          | _ => true
          end
      | None => false
      end
  | EmptyString => false
  end.

(** The property names an empty object literal already answers for, through
    [Object.prototype]; [bump] is exact away from them. *)
Definition object_prototype_keys : list string :=
  [ "constructor"; "__proto__"; "hasOwnProperty"; "isPrototypeOf";
    "propertyIsEnumerable"; "toLocaleString"; "toString"; "valueOf";
    "__defineGetter__"; "__defineSetter__"; "__lookupGetter__";
    "__lookupSetter__" ].

(** A category the statistics handler counts under its own name. *)
Definition plain_category (p : product) : Prop :=
  exists s, category p = JStr s /\ ~ In s object_prototype_keys.

(** The number of records whose category is the string [s]. *)
Definition records_in_category (s : string) (products : store) : Z :=
  len (filter (fun p => match category p with
                        | JStr t => String.eqb s t
                        | _ => false
                        end) products).

(** The sum of the counts of a table. *)
Definition total_count (table : list (string * Z)) : Z :=
  fold_right (fun kv acc => snd kv + acc) 0 table.

(** A create, an update, a lookup and a deletion as a client states them. *)
Definition create_request (hs : list (string * string))
  (qs : list (string * qval)) (b : list (string * jsval)) : request :=
  client_request POST ["api"; "products"] hs qs b.

Definition update_request (seg : string) (hs : list (string * string))
  (qs : list (string * qval)) (b : list (string * jsval)) : request :=
  client_request PUT ["api"; "products"; seg] hs qs b.

Definition lookup_request (seg : string) (hs : list (string * string))
  (qs : list (string * qval)) (b : list (string * jsval)) : request :=
  client_request GET ["api"; "products"; seg] hs qs b.

Definition delete_request (seg : string) (hs : list (string * string))
  (qs : list (string * qval)) (b : list (string * jsval)) : request :=
  client_request DELETE ["api"; "products"; seg] hs qs b.

Definition list_request (hs : list (string * string))
  (qs : list (string * qval)) (b : list (string * jsval)) : request :=
  client_request GET ["api"; "products"] hs qs b.

Definition search_request (hs : list (string * string))
  (qs : list (string * qval)) (b : list (string * jsval)) : request :=
  client_request GET ["api"; "products"; "search"] hs qs b.

(** The record the create handler of line 135 builds from a body. *)
Definition created (b : list (string * jsval)) (products : store) : product :=
  mkProduct (next_id products) (property b "name") (property b "description")
    (property b "price") (property b "category") (property b "inStock").

(** The record the update handler of line 150 leaves in place of [p]. *)
Definition patched (b : list (string * jsval)) (p : product) : product :=
  mkProduct (id p)
    (nullish_or (property b "name") (name p))
    (nullish_or (property b "description") (description p))
    (nullish_or (property b "price") (price p))
    (nullish_or (property b "category") (category p))
    (nullish_or (property b "inStock") (inStock p)).

(** The reply of the error translator to a runtime [TypeError]. *)
Definition is_type_error_reply (o : outcome) : Prop :=
  exists message,
    o = Sent (status_json 500 (ErrorEnvelope "error" "TypeError" message)).

(** * Properties *)

Local Open Scope list_scope.

Arguments asyncHandler : simpl never.
Arguments list_products : simpl never.
Arguments search_products : simpl never.
Arguments get_product : simpl never.
Arguments create_product : simpl never.
Arguments update_product : simpl never.
Arguments delete_product : simpl never.
Arguments product_stats : simpl never.
Arguments authenticate : simpl never.
Arguments validateProduct : simpl never.
Arguments translate_error : simpl never.
Arguments error_translator : simpl never.
Arguments post_stub : simpl never.
Arguments dump_products : simpl never.
Arguments get_product_late : simpl never.
Arguments create_product_late : simpl never.
Arguments update_product_late : simpl never.
Arguments delete_product_late : simpl never.

(** ** The built-ins on sample inputs *)

Example parseInt_decimal_prefix : parseInt_string "7abc" = Some 7.
Proof. reflexivity. Qed.

Example parseInt_hexadecimal : parseInt_string "0x1f" = Some 31.
Proof. reflexivity. Qed.

Example parseInt_sign_and_space : parseInt_string "  -12px" = Some (-12).
Proof. reflexivity. Qed.

Example parseInt_no_digit : parseInt_string "stats" = None.
Proof. reflexivity. Qed.

Example parseInt_bare_prefix : parseInt_string "0x" = None.
Proof. reflexivity. Qed.

Example parseInt_rounds_to_a_double :
  parseInt_number (Some "9007199254740993") = Finite 9007199254740992.
Proof. reflexivity. Qed.

Example zero_falls_back :
  number_or (parseInt_number (Some "0")) (Finite 2) = Finite 2.
Proof. reflexivity. Qed.

Example query_text_joins :
  query_text (QArr [QStr "2"; QStr "3"]) = "2,3".
Proof. reflexivity. Qed.

Example slice_of_nothing :
  slice_of [1; 2; 3; 4; 5] NaN PlusInfinity = [1; 2; 3; 4; 5].
Proof. reflexivity. Qed.

Example slice_from_the_end : slice [1; 2; 3; 4; 5] (-4) (-2) = [2; 3].
Proof. reflexivity. Qed.

Example slice_past_the_end : slice [1; 2; 3; 4; 5] 4 6 = [5].
Proof. reflexivity. Qed.

Example ceil_div_rounds_up : ceil_div 5 2 = 3.
Proof. reflexivity. Qed.

Example includes_inside : includes "keyboard" "board" = true.
Proof. reflexivity. Qed.

Example match_path_ignores_case :
  match_path product_path ["API"; "Products"; "7"] = Some [("id", "7")].
Proof. reflexivity. Qed.

(** ** Reading the stack, proved *)

Lemma lower_api : toLowerCase "api" = "api".
Proof. reflexivity. Qed.
Lemma lower_products : toLowerCase "products" = "products".
Proof. reflexivity. Qed.
Lemma lower_search : toLowerCase "search" = "search".
Proof. reflexivity. Qed.
Lemma lower_stats : toLowerCase "stats" = "stats".
Proof. reflexivity. Qed.

Lemma authenticate_cases (req : request) :
  authenticate req = Next \/
  authenticate req =
    Reply (status_json 401 (ErrorText "Unauthorized: invalid or missing API key")).
Proof.
  unfold authenticate.
  destruct (truthy_str _ && _)%bool; [left | right]; reflexivity.
Qed.

Lemma answered_by_eq (n : nat) (h : handler) (req : request)
  (ps : list (string * string)) (products : store) :
  visit 5 (visit 35 (visit 39
    match h (with_params req ps) products with
    | (st', Done r) => mkResult st' (Sent r) [n]
    | (st', Fail e) =>
        visit n
          match error_translator e with
          | inr r => mkResult st' (Sent r) [276%nat]
          | inl thrown =>
              visit 276 (mkResult st' (Unanswered (Some thrown)) [])
          end
    | (st', Pending) => mkResult st' NoReply [n]
    end)) = answered_by n h req ps products.
Proof.
  unfold answered_by, translated.
  destruct (h (with_params req ps) products) as [st' [r | e |]];
    try reflexivity.
  destruct (error_translator e); reflexivity.
Qed.

Ltac by_shape p :=
  destruct p as [|a [|b [|c [|d p]]]]; try reflexivity;
  unfold shape, match_path, products_path, search_path, stats_path,
    product_path, is_lit;
  rewrite ?lower_api, ?lower_products, ?lower_search, ?lower_stats;
  repeat match goal with
    | |- context [String.eqb ?x ?y] =>
        let E := fresh "E" in destruct (String.eqb x y) eqn:E; cbn
    end;
  try reflexivity;
  repeat match goal with
    | E : String.eqb _ _ = true |- _ => apply String.eqb_eq in E
    end;
  subst; try discriminate; try congruence.

Lemma match_products (p : list string) :
  match_path products_path p =
  match shape p with Collection => Some [] | _ => None end.
Proof. by_shape p. Qed.

Lemma match_search (p : list string) :
  match_path search_path p =
  match shape p with Search _ => Some [] | _ => None end.
Proof. by_shape p. Qed.

Lemma match_stats (p : list string) :
  match_path stats_path p =
  match shape p with Statistics _ => Some [] | _ => None end.
Proof. by_shape p. Qed.

Lemma match_product (p : list string) :
  match_path product_path p =
  match shape p with
  | Search c | Statistics c | Item c => Some [("id", c)]
  | _ => None
  end.
Proof. by_shape p. Qed.

Ltac read_paths :=
  rewrite ?match_products, ?match_search, ?match_stats, ?match_product.

Lemma matches_accepts (req : request) (l : layer) :
  In l app -> matches req l = accepts (method req) (shape (path req)) l.
Proof.
  unfold app; intros H; cbn [In] in H.
  repeat (destruct H as [<- | H]); try contradiction.
  all: unfold matches, accepts, route_match; try reflexivity.
  all: destruct (handles _ _); try reflexivity.
  all: read_paths; destruct (shape (path req)); reflexivity.
Qed.

Lemma matching_routes_accepts (req : request) :
  matching_routes req = filter (accepts (method req) (shape (path req))) app.
Proof.
  unfold matching_routes. apply filter_ext_in. apply matches_accepts.
Qed.

Lemma handle_respond (req : request) (products : store) :
  handle req products = respond (method req) (shape (path req)) req products.
Proof.
  destruct req as [m p hs qs b ps0].
  unfold handle, app, run, route_match, handles, path, method,
    json_parser, logger, not_found, run_chain.
  read_paths.
  destruct m; destruct (shape p) as [ | seg | seg | seg | ].
  all: cbn [verb_eqb andb orb run_error option_map respond].
  all: try rewrite answered_by_eq; try reflexivity.
  all: unfold gate, translated; destruct (authenticate _) as [ | r | e];
       try reflexivity; try (destruct (error_translator e); reflexivity).
Qed.

(** ** Route resolution *)

Lemma visited_answered_by (n : nat) (h : handler) (req : request)
  (ps : list (string * string)) (products : store) :
  visited (answered_by n h req ps products) = [5; 35; 39; n]%nat \/
  visited (answered_by n h req ps products) = [5; 35; 39; n; 276]%nat.
Proof.
  unfold answered_by, translated.
  destruct (h (with_params req ps) products) as [st' [r | e |]];
    cbn; auto.
Qed.

Lemma visited_gate (req : request) (products : store) :
  visited (gate req products) = [5; 35; 39; 224; 272; 276]%nat \/
  visited (gate req products) = [5; 35; 39; 224]%nat.
Proof.
  unfold gate. destruct (authenticate_cases req) as [A | A]; rewrite A;
    [left | right]; reflexivity.
Qed.

Lemma run_chain_passes (chain : list middleware) (req : request) :
  Forall (fun mw => mw req = Next) chain -> run_chain chain req = Next.
Proof.
  induction 1 as [| mw chain E _ IH]; cbn; [reflexivity | ].
  rewrite E. exact IH.
Qed.

Lemma run_chain_stops (before after : list middleware) (mw : middleware)
  (req : request) :
  Forall (fun mw' => mw' req = Next) before -> mw req <> Next ->
  run_chain (before ++ mw :: after) req = mw req.
Proof.
  intros B S. induction B as [| mw' before E _ IH]; cbn.
  - destruct (mw req); congruence.
  - rewrite E. exact IH.
Qed.

Lemma alone_answered_by (n : nat) (v : verb) (pat : list segment) (h : handler)
  (req : request) (ps : list (string * string)) (products : store) :
  route_match v pat req = Some ps ->
  run (alone (Route n v pat [] h)) req products = answered_by n h req ps products.
Proof.
  intros M. unfold alone, run, json_parser, logger, run_chain.
  rewrite M. cbn [run_error]. apply answered_by_eq.
Qed.

Lemma apart_by_test (xs ys : list nat) :
  forallb (fun n => negb (existsb (Nat.eqb n) ys)) xs = true ->
  forall n, In n xs -> ~ In n ys.
Proof.
  intros T n X Y.
  rewrite forallb_forall in T. specialize (T n X).
  apply negb_true_iff in T.
  assert (existsb (Nat.eqb n) ys = true) as T'.
  { apply existsb_exists. exists n. split; [exact Y | apply Nat.eqb_refl]. }
  congruence.
Qed.

(** C2.  Route resolution is first-registered-wins.  For every request and
    catalogue, no registration that repeats or is covered by an earlier one
    (lines 178, 227, 234, 239, 246, 253, 261) ever runs.  When the request
    matches registrations [l :: rest] in registration order, [l] is the only
    route that runs, the request is served exactly as by an application
    whose only route is [l], and what the handler of [l] returns is what
    becomes of the request: its reply is the reply and its catalogue the
    catalogue, an error it passes on goes to the translator, and a handler
    that neither replies nor passes leaves the request pending.  A
    registration with a middleware chain runs it first: its handler decides
    when every middleware calls [next()], and the first middleware that
    replies or passes an error on decides otherwise, the handler not being
    called. *)
Theorem first_registration_wins (req : request) (products : store) :
  (forall n, In n shadowed_lines -> ~ In n (visited (handle req products))) /\
  (forall l rest, matching_routes req = l :: rest ->
     routes_run (handle req products) = [line_of l] /\
     handle req products = run (alone l) req products /\
     exists n v pat h ps,
       l = Route n v pat [] h /\
       route_match v pat req = Some ps /\
       handle req products = answered_by n h req ps products /\
       (forall st' r,
          h (with_params req ps) products = (st', Done r) ->
          handle req products = mkResult st' (Sent r) [5; 35; 39; n]%nat) /\
       (forall st' e,
          h (with_params req ps) products = (st', Fail e) ->
          handle req products = translated [5; 35; 39; n]%nat e st') /\
       (forall st',
          h (with_params req ps) products = (st', Pending) ->
          handle req products = mkResult st' NoReply [5; 35; 39; n]%nat)) /\
  (forall n v pat chain h ps,
     route_match v pat req = Some ps ->
     (Forall (fun mw => mw (with_params req ps) = Next) chain ->
        run (alone (Route n v pat chain h)) req products
          = answered_by n h req ps products) /\
     (forall before mw after r,
        chain = before ++ mw :: after ->
        Forall (fun mw' => mw' (with_params req ps) = Next) before ->
        mw (with_params req ps) = Reply r ->
        run (alone (Route n v pat chain h)) req products
          = mkResult products (Sent r) [5; 35; 39; n]%nat) /\
     (forall before mw after e,
        chain = before ++ mw :: after ->
        Forall (fun mw' => mw' (with_params req ps) = Next) before ->
        mw (with_params req ps) = Raise e ->
        run (alone (Route n v pat chain h)) req products
          = translated [5; 35; 39; n]%nat e products)).
Proof.
  split; [ | split].
  - rewrite handle_respond.
    destruct (method req), (shape (path req)); cbn [respond].
    all: match goal with
         | |- context [answered_by ?n ?h ?r ?ps ?st] =>
             destruct (visited_answered_by n h r ps st) as [E | E]; rewrite E
         | |- context [gate ?r ?st] =>
             destruct (visited_gate r st) as [E | E]; rewrite E
         end.
    all: apply apart_by_test; reflexivity.
  - rewrite handle_respond, matching_routes_accepts.
    intros l rest M.
    destruct req as [m p hs qs b ps0]. cbn [method path] in *.
    destruct m; destruct (shape p) as [ | seg | seg | seg | ] eqn:K.
    all: cbn in M; try discriminate M.
    all: injection M as <- _; cbn [respond line_of].
    all: split;
      [ unfold answered_by, translated;
        match goal with
        | |- context [?h (with_params ?r ?ps) ?st] =>
            destruct (h (with_params r ps) st) as [st' [r' | e |]]
        end; try reflexivity; try (destruct (error_translator e); reflexivity)
      | ].
    all: split;
      [ symmetry; apply alone_answered_by;
        unfold route_match, handles, method, path; cbn [verb_eqb andb orb];
        read_paths; rewrite K; reflexivity
      | ].
    all: do 5 eexists; split; [reflexivity | ].
    all: split;
      [ unfold route_match, handles, method, path; cbn [verb_eqb andb orb];
        read_paths; rewrite K; reflexivity
      | ].
    all: split; [reflexivity | ].
    all: unfold answered_by;
         repeat split; intros; 
         match goal with
         | H : _ = (_, _) |- _ => rewrite H; reflexivity
         end.
  - intros n v pat chain h ps M.
    assert (forall x,
              run_chain chain (with_params req ps) = x ->
              run (alone (Route n v pat chain h)) req products
                = visit 5 (visit 35 (visit 39
                    match x with
                    | Reply r => mkResult products (Sent r) [n]
                    | Raise e =>
                        visit n
                          (run_error [UseError 276 error_translator] e products)
                    | Next =>
                        match h (with_params req ps) products with
                        | (st', Done r) => mkResult st' (Sent r) [n]
                        | (st', Fail e) =>
                            visit n
                              (run_error [UseError 276 error_translator] e st')
                        | (st', Pending) => mkResult st' NoReply [n]
                        end
                    end))) as U.
    { intros x <-. unfold alone, run, json_parser, logger.
      rewrite M. reflexivity. }
    repeat split.
    + intros P. rewrite (U Next (run_chain_passes _ _ P)).
      cbn [run_error]. apply answered_by_eq.
    + intros before mw after r -> B E.
      rewrite (U (Reply r)); [reflexivity | ].
      rewrite run_chain_stops; [exact E | exact B | congruence].
    + intros before mw after e -> B E.
      rewrite (U (Raise e)).
      * unfold translated. cbn [run_error].
        destruct (error_translator e); reflexivity.
      * rewrite run_chain_stops; [exact E | exact B | congruence].
Qed.

(** The witness of [first_registration_wins]: [GET /api/products] matches the
    registrations of lines 84 and 234, and only the first runs. *)
Lemma first_registration_wins_witness :
  matching_routes (client_request GET ["api"; "products"] [] [] []) =
    [ Route 84 GET products_path [] (asyncHandler list_products);
      Route 234 GET products_path [] dump_products ] /\
  routes_run (handle (client_request GET ["api"; "products"] [] [] []) products0)
    = [84%nat].
Proof.
  split; [reflexivity | ].
  apply (proj1 (proj2 (first_registration_wins
                         (client_request GET ["api"; "products"] [] [] [])
                         products0))
           (Route 84 GET products_path [] (asyncHandler list_products))
           [Route 234 GET products_path [] dump_products]).
  reflexivity.
Defined.

(** ** The gate and the validation, as registered *)

(** C1.  At the request [POST /api/products] that carries no [x-api-key]
    header, [authenticate] on its own answers 401, yet the application runs
    the create handler of line 135: the reply is 201 and the catalogue gains
    record 6.  The claim (401, store unmodified) fails at this input. *)
Theorem create_without_key_is_served :
  authenticate (client_request POST ["api"; "products"] [] [] pen_body)
    = Reply unauthorized /\
  handle (client_request POST ["api"; "products"] [] [] pen_body) products0
    = mkResult (products0 ++ [pen 6])
        (Sent (status_json 201 (OneProduct (pen 6))))
        [5; 35; 39; 135]%nat.
Proof. split; reflexivity. Qed.

(** C4.  At the request [POST /api/products] with the empty body [{}] and a
    valid key, [validateProduct] on its own answers 400, yet the application
    never calls it: the create handler of line 135 replies 201 and stores a
    record whose five fields are undefined.  The claim (400, store unchanged)
    fails at this input. *)
Theorem create_with_empty_body_is_stored :
  validateProduct (client_request POST ["api"; "products"] with_key [] [])
    = Reply (status_json 400 (ErrorText "All product fields are required")) /\
  handle (client_request POST ["api"; "products"] with_key [] []) products0
    = mkResult (products0 ++ [blank 6])
        (Sent (status_json 201 (OneProduct (blank 6))))
        [5; 35; 39; 135]%nat.
Proof. split; reflexivity. Qed.

(** [validateProduct] on its own passes exactly the payloads whose name,
    description and category are truthy, whose price is a number and whose
    inStock is a boolean. *)
Lemma validateProduct_passes (req : request) :
  validateProduct req = Next <->
  truthy (body_get req "name") = true /\
  truthy (body_get req "description") = true /\
  is_number (body_get req "price") = true /\
  truthy (body_get req "category") = true /\
  is_boolean (body_get req "inStock") = true.
Proof.
  unfold validateProduct.
  destruct (truthy (body_get req "name")),
           (truthy (body_get req "description")),
           (truthy (body_get req "category")),
           (body_get req "price"), (body_get req "inStock"); cbn.
  all: split;
    [ intros H; try discriminate H; repeat split
    | intros (? & ? & ? & ? & ?); try discriminate; reflexivity ].
Qed.

Lemma assoc_bump (k k' : string) (acc : list (string * Z)) :
  assoc k' (bump k acc) =
    if String.eqb k' k
    then Some (match assoc k acc with Some n => n + 1 | None => 1 end)
    else assoc k' acc.
Proof.
  induction acc as [| [k0 n] acc IH]; cbn.
  - destruct (String.eqb k' k); reflexivity.
  - destruct (String.eqb k k0) eqn:E; cbn.
    + apply String.eqb_eq in E. subst k0.
      destruct (String.eqb k' k); reflexivity.
    + rewrite IH. destruct (String.eqb k' k0) eqn:E'; [ | reflexivity].
      apply String.eqb_eq in E'. subst k0.
      destruct (String.eqb k' k) eqn:E''; [ | reflexivity].
      apply String.eqb_eq in E''. subst k'. rewrite String.eqb_refl in E.
      discriminate.
Qed.

Lemma count_category_nonneg (k : string) (products : store) :
  0 <= count_category k products.
Proof. unfold count_category, len. lia. Qed.

Lemma count_category_cons (k : string) (p : product) (products : store) :
  count_category k (p :: products) =
    (if String.eqb k (property_key (category p)) then 1 else 0)
    + count_category k products.
Proof.
  unfold count_category, len. cbn [filter].
  destruct (String.eqb k (property_key (category p))); cbn [List.length]; lia.
Qed.

Lemma assoc_fold_bump (k : string) (products : store) (acc : list (string * Z)) :
  assoc k (fold_left (fun a p => bump (property_key (category p)) a) products acc)
    = match assoc k acc with
      | Some n => Some (n + count_category k products)
      | None =>
          if count_category k products =? 0 then None
          else Some (count_category k products)
      end.
Proof.
  revert acc. induction products as [| p products IH]; intros acc.
  - cbn. destruct (assoc k acc); [f_equal; lia | reflexivity].
  - cbn [fold_left]. rewrite IH, assoc_bump, count_category_cons.
    pose proof (count_category_nonneg k products) as N.
    destruct (String.eqb k (property_key (category p))) eqn:E.
    + apply String.eqb_eq in E. subst k.
      destruct (assoc (property_key (category p)) acc).
      * f_equal. lia.
      * replace (1 + count_category _ products =? 0) with false
          by (symmetry; apply Z.eqb_neq; lia).
        reflexivity.
    + destruct (assoc k acc); reflexivity.
Qed.

(** The statistics handler of line 178, had it been reached, reports the
    number of records and, for each key, the number of records whose category
    reads as that key. *)
Lemma product_stats_counts (req : request) (products : store) :
  exists table,
    asyncHandler product_stats req products
      = (products, Done (status_json 200 (Stats (len products) table))) /\
    forall k,
      assoc k table =
        if count_category k products =? 0 then None
        else Some (count_category k products).
Proof.
  exists (count_by_category products). split; [reflexivity | ].
  intros k. unfold count_by_category. rewrite assoc_fold_bump. reflexivity.
Qed.

Lemma find_never {A : Type} (f : A -> bool) (xs : list A) :
  (forall x, f x = false) -> find f xs = None.
Proof.
  intros F. induction xs as [| x xs IH]; cbn; [reflexivity | ].
  rewrite F. exact IH.
Qed.

(** C3.  For every catalogue, headers, query and body, the request
    [GET /api/products/stats] is taken by the [/:id] route of line 126, which
    reads ["stats"] as an id, finds no number in it and replies 404
    [{message: "Product not found"}]; the statistics handler of line 178
    does not run.  The claim ([{totalProducts, countByCategory}]) fails at
    every such request. *)
Theorem stats_request_is_read_as_an_id
  (hs : list (string * string)) (qs : list (string * qval)) (b : list (string * jsval))
  (products : store) :
  handle (client_request GET ["api"; "products"; "stats"] hs qs b) products
    = mkResult products (Sent product_not_found) [5; 35; 39; 126]%nat.
Proof.
  rewrite handle_respond.
  change (shape (path (client_request GET ["api"; "products"; "stats"] hs qs b)))
    with (Statistics "stats").
  cbn [respond method client_request].
  unfold answered_by, get_product.
  rewrite find_never; [reflexivity | ].
  intros p. reflexivity.
Qed.

(** ** Requests that match no route *)

Lemma authenticate_with_key (req : request) :
  assoc "x-api-key" (headers req) = Some VALID_API_KEY ->
  authenticate req = Next.
Proof. intros K. unfold authenticate. rewrite K. reflexivity. Qed.

Lemma authenticate_without_key (req : request) :
  assoc "x-api-key" (headers req) <> Some VALID_API_KEY ->
  authenticate req = Reply unauthorized.
Proof.
  intros K. unfold authenticate.
  destruct (assoc "x-api-key" (headers req)) as [k | ]; cbn.
  - destruct (String.eqb k VALID_API_KEY) eqn:E.
    + apply String.eqb_eq in E. congruence.
    + rewrite andb_false_r. reflexivity.
  - reflexivity.
Qed.

Lemma unmatched_goes_to_gate (req : request) (products : store) :
  matching_routes req = [] -> handle req products = gate req products.
Proof.
  rewrite handle_respond, matching_routes_accepts.
  destruct (method req), (shape (path req)); cbn; intros M;
    first [reflexivity | discriminate M].
Qed.

(** C6, as amended.  A request that matches no registered route first
    meets [authenticate]: with the valid [x-api-key] the not-found middleware
    runs and the translator sends 404
    [{status: "error", errorType: "NotFoundError", message: "Route not found"}];
    without it the reply is 401 and the not-found middleware does not run.
    The catalogue is unchanged either way, and an error with no status code
    translates to 500, which the translator sends. *)
Theorem unmatched_request_meets_the_gate (req : request) (products : store) :
  matching_routes req = [] ->
  (assoc "x-api-key" (headers req) = Some VALID_API_KEY ->
     handle req products
       = mkResult products (Sent route_not_found)
           [5; 35; 39; 224; 272; 276]%nat) /\
  (assoc "x-api-key" (headers req) <> Some VALID_API_KEY ->
     handle req products
       = mkResult products (Sent unauthorized) [5; 35; 39; 224]%nat) /\
  (forall kind message,
     status (translate_error (mkError kind message None)) = 500) /\
  (forall kind message,
     error_translator (mkError kind message None)
       = inr (translate_error (mkError kind message None))).
Proof.
  intros M. rewrite (unmatched_goes_to_gate req products M). unfold gate.
  repeat split.
  - intros K. rewrite (authenticate_with_key req K). reflexivity.
  - intros K. rewrite (authenticate_without_key req K). reflexivity.
Qed.

(** The witness of [unmatched_request_meets_the_gate]: [GET /nope] with the
    valid key. *)
Lemma unmatched_request_meets_the_gate_witness :
  handle (client_request GET ["nope"] with_key [] []) products0
    = mkResult products0 (Sent route_not_found)
        [5; 35; 39; 224; 272; 276]%nat.
Proof.
  apply (proj1 (unmatched_request_meets_the_gate
                  (client_request GET ["nope"] with_key [] []) products0
                  eq_refl)).
  reflexivity.
Defined.

(** The counterexample to C6 as stated: [GET /nope] with no key matches no
    route, and the reply is 401, not the 404 of the not-found handler, which
    never runs. *)
Lemma unmatched_request_without_key :
  matching_routes (client_request GET ["nope"] [] [] []) = [] /\
  reply (handle (client_request GET ["nope"] [] [] []) products0)
    = Sent unauthorized /\
  reply (handle (client_request GET ["nope"] [] [] []) products0)
    <> Sent route_not_found /\
  ~ In 272%nat (visited (handle (client_request GET ["nope"] [] [] []) products0)).
Proof.
  repeat split; try reflexivity.
  - intros H. vm_compute in H. discriminate H.
  - vm_compute. intuition discriminate.
Qed.

(** ** Update and lookup by id *)

Lemma shape_of_item (seg : string) :
  seg <> "" ->
  shape ["api"; "products"; seg] =
    if is_lit "search" seg then Search seg
    else if is_lit "stats" seg then Statistics seg
    else Item seg.
Proof.
  intros N. unfold shape.
  change (is_lit "api" "api" && is_lit "products" "products")%bool with true.
  cbv iota.
  destruct (is_lit "search" seg); [reflexivity | ].
  destruct (is_lit "stats" seg); [reflexivity | ].
  destruct (String.eqb seg "") eqn:E; [ | reflexivity].
  apply String.eqb_eq in E. contradiction.
Qed.

Lemma find_splits (f : product -> bool) (g : product -> product)
  (products : store) (p : product) :
  find f products = Some p ->
  exists before after,
    products = before ++ p :: after /\
    Forall (fun q => f q = false) before /\
    update_first f g products = before ++ g p :: after.
Proof.
  induction products as [| x xs IH]; cbn; [discriminate | ].
  destruct (f x) eqn:F; intros H.
  - injection H as <-. exists [], xs. repeat split. constructor.
  - destruct (IH H) as (before & after & E & B & U).
    exists (x :: before), after. repeat split.
    + cbn. congruence.
    + constructor; assumption.
    + cbn. congruence.
Qed.

Lemma nullish_or_overlays (supplied old : jsval) :
  overlays supplied old (nullish_or supplied old).
Proof.
  unfold overlays, nullish_or.
  destruct (is_nullish supplied); split; intros; congruence.
Qed.

(** C9.  [PUT /api/products/<seg>] is a partial update.  When no record has
    the id read from the segment, the reply is 404 and the catalogue is
    unchanged.  Otherwise the first such record [p] is replaced in place by
    [p'], every other record is untouched, [p'] keeps the id of [p], each of
    name, description, price, category and inStock takes the supplied value
    when it is neither absent nor null and keeps its prior value otherwise,
    and the reply is 200 with [p']. *)
Theorem update_is_partial (seg : string) (hs : list (string * string)) (qs : list (string * qval))
  (b : list (string * jsval)) (products : store) :
  seg <> "" ->
  match find (has_id_of seg) products with
  | None =>
      handle (client_request PUT ["api"; "products"; seg] hs qs b) products
        = mkResult products (Sent product_not_found) [5; 35; 39; 150]%nat
  | Some p =>
      exists p' before after,
        products = before ++ p :: after /\
        Forall (fun q => has_id_of seg q = false) before /\
        handle (client_request PUT ["api"; "products"; seg] hs qs b) products
          = mkResult (before ++ p' :: after)
              (Sent (status_json 200 (OneProduct p')))
              [5; 35; 39; 150]%nat /\
        id p' = id p /\
        overlays (property b "name") (name p) (name p') /\
        overlays (property b "description") (description p) (description p') /\
        overlays (property b "price") (price p) (price p') /\
        overlays (property b "category") (category p) (category p') /\
        overlays (property b "inStock") (inStock p) (inStock p')
  end.
Proof.
  intros N. rewrite handle_respond.
  change (path (client_request PUT ["api"; "products"; seg] hs qs b))
    with ["api"; "products"; seg].
  rewrite (shape_of_item seg N).
  assert (respond PUT
            (if is_lit "search" seg then Search seg
             else if is_lit "stats" seg then Statistics seg else Item seg)
            (client_request PUT ["api"; "products"; seg] hs qs b) products
          = answered_by 150 update_product
              (client_request PUT ["api"; "products"; seg] hs qs b)
              [("id", seg)] products) as R.
  { destruct (is_lit "search" seg); [reflexivity | ].
    destruct (is_lit "stats" seg); reflexivity. }
  cbn [method client_request]. rewrite R. clear R.
  unfold answered_by, update_product.
  change (find (has_param_id _) products) with (find (has_id_of seg) products).
  destruct (find (has_id_of seg) products) as [p | ] eqn:F; [ | reflexivity].
  set (req := with_params _ _).
  destruct (find_splits (has_id_of seg) (overlay req) products p F)
    as (before & after & E & B & U).
  exists (overlay req p), before, after.
  change (update_first (has_param_id req)) with (update_first (has_id_of seg)).
  rewrite U.
  repeat split; try assumption; try reflexivity.
  all: apply nullish_or_overlays.
Qed.

(** The witness of [update_is_partial]: [PUT /api/products/1] with body
    [{price: 999}] on the initial catalogue. *)
Lemma update_is_partial_witness :
  exists p' before after,
    products0 = before ++ laptop :: after /\
    Forall (fun q => has_id_of "1" q = false) before /\
    handle (client_request PUT ["api"; "products"; "1"] [] []
              [("price", JNum 999)]) products0
      = mkResult (before ++ p' :: after)
          (Sent (status_json 200 (OneProduct p')))
          [5; 35; 39; 150]%nat /\
    id p' = id laptop /\
    overlays JUndefined (name laptop) (name p') /\
    overlays JUndefined (description laptop) (description p') /\
    overlays (JNum 999) (price laptop) (price p') /\
    overlays JUndefined (category laptop) (category p') /\
    overlays JUndefined (inStock laptop) (inStock p').
Proof.
  exact (update_is_partial "1" [] [] [("price", JNum 999)] products0
           ltac:(discriminate)).
Defined.

Lemma strip_radix_cases (s : string) :
  strip_radix s = (10, s) \/ exists r, strip_radix s = (16, r).
Proof.
  destruct s as [| c r]; [left; reflexivity | ].
  destruct c as [[] [] [] [] [] [] [] []]; try (left; reflexivity).
  destruct r as [| c2 r2]; [left; reflexivity | ].
  destruct c2 as [[] [] [] [] [] [] [] []];
    first [left; reflexivity | right; eexists; reflexivity].
Qed.

Lemma digit_is_no_space_or_sign (c : ascii) (r : string) (d : Z) :
  digit_value 10 c = Some d ->
  strip_sign (trim_start (String c r)) = (1, String c r).
Proof.
  destruct c as [[] [] [] [] [] [] [] []]; intros D;
    first [discriminate D | reflexivity].
Qed.

Lemma parseInt_in_decimal (s : string) :
  opens_in_decimal s = true -> parseInt_string s = decimal_prefix s.
Proof.
  destruct s as [| c r]; [discriminate | ].
  unfold opens_in_decimal, parseInt_string, decimal_prefix.
  destruct (digit_value 10 c) as [d | ] eqn:D; [ | discriminate].
  rewrite (digit_is_no_space_or_sign c r d D).
  destruct (strip_radix_cases (String c r)) as [E | [r' E]]; rewrite E.
  - intros _. destruct (read_digits 10 (String c r) None) as [n | ]; cbn;
      [ | reflexivity].
    f_equal. destruct n; reflexivity.
  - discriminate.
Qed.

Lemma find_holds {A : Type} (f : A -> bool) (xs : list A) (x : A) :
  find f xs = Some x -> f x = true.
Proof.
  induction xs as [| y ys IH]; cbn; [discriminate | ].
  destruct (f y) eqn:F; intros H; [congruence | exact (IH H)].
Qed.

(** C10, as amended.  The live [GET /api/products/<seg>] handler reads the
    segment with [parseInt]: white space and one sign are skipped, [0x] or
    [0X] selects hexadecimal, and otherwise the longest decimal prefix is the
    id (so ["7abc"] reads as 7).  The reply is 200 with the first record of
    that id, and 404 [{message: "Product not found"}] when the segment holds
    no number or no record has the id; the handler never fails and the
    catalogue is unchanged. *)
Theorem lookup_reads_parseInt (seg : string) (hs : list (string * string)) (qs : list (string * qval))
  (b : list (string * jsval)) (products : store) :
  seg <> "" -> is_lit "search" seg = false ->
  handle (client_request GET ["api"; "products"; seg] hs qs b) products
    = mkResult products
        (Sent match find (has_id_of seg) products with
              | Some p => status_json 200 (OneProduct p)
              | None => product_not_found
              end)
        [5; 35; 39; 126]%nat /\
  (forall p, find (has_id_of seg) products = Some p ->
     parseInt_string seg = Some (id p)) /\
  (parseInt_string seg = None -> find (has_id_of seg) products = None) /\
  (opens_in_decimal seg = true -> parseInt_string seg = decimal_prefix seg).
Proof.
  intros N S. repeat split.
  - rewrite handle_respond.
    change (path (client_request GET ["api"; "products"; seg] hs qs b))
      with ["api"; "products"; seg].
    rewrite (shape_of_item seg N), S.
    assert (respond GET
              (if is_lit "stats" seg then Statistics seg else Item seg)
              (client_request GET ["api"; "products"; seg] hs qs b) products
            = answered_by 126 get_product
                (client_request GET ["api"; "products"; seg] hs qs b)
                [("id", seg)] products) as R.
    { destruct (is_lit "stats" seg); reflexivity. }
    cbn [method client_request]. rewrite R. clear R.
    unfold answered_by, get_product.
    change (find (has_param_id _) products) with (find (has_id_of seg) products).
    destruct (find (has_id_of seg) products); reflexivity.
  - intros p F. apply find_holds in F. unfold has_id_of in F.
    destruct (parseInt_string seg) as [n | ]; cbn in F; [ | discriminate].
    apply Z.eqb_eq in F. congruence.
  - intros P. apply find_never. intros p. unfold has_id_of. rewrite P.
    reflexivity.
  - apply parseInt_in_decimal.
Qed.

(** The witness of [lookup_reads_parseInt]: [GET /api/products/5abc] reads
    id 5. *)
Lemma lookup_reads_parseInt_witness :
  handle (client_request GET ["api"; "products"; "5abc"] [] [] []) products0
    = mkResult products0 (Sent (status_json 200 (OneProduct monitor)))
        [5; 35; 39; 126]%nat.
Proof.
  exact (proj1 (lookup_reads_parseInt "5abc" [] [] [] products0
                  ltac:(discriminate) eq_refl)).
Defined.

(** The counterexample to C10 as stated: the decimal prefix of ["0x5"] is 0
    and no record has id 0, yet [GET /api/products/0x5] replies 200 with
    record 5, because [parseInt] reads the segment in hexadecimal. *)
Lemma hexadecimal_segment_finds_a_record :
  decimal_prefix "0x5" = Some 0 /\
  find (fun p => id p =? 0) products0 = None /\
  handle (client_request GET ["api"; "products"; "0x5"] [] [] []) products0
    = mkResult products0 (Sent (status_json 200 (OneProduct monitor)))
        [5; 35; 39; 126]%nat.
Proof. repeat split; reflexivity. Qed.

(** ** Identifiers *)

Lemma final_store_answered_by (n : nat) (h : handler) (req : request)
  (ps : list (string * string)) (products : store) :
  final_store (answered_by n h req ps products)
    = fst (h (with_params req ps) products).
Proof.
  unfold answered_by.
  destruct (h (with_params req ps) products) as [st' [r | e |]]; reflexivity.
Qed.

Lemma final_store_gate (req : request) (products : store) :
  final_store (gate req products) = products.
Proof. unfold gate. destruct (authenticate req); reflexivity. Qed.

Lemma list_products_reads (req : request) (products : store) :
  fst (asyncHandler list_products req products) = products.
Proof.
  unfold asyncHandler, list_products.
  destruct (truthy_query _); [ | reflexivity].
  destruct (assoc "category" (query req)); [ | reflexivity].
  destruct (filter_try _ _); reflexivity.
Qed.

Lemma search_products_reads (req : request) (products : store) :
  fst (asyncHandler search_products req products) = products.
Proof.
  unfold asyncHandler, search_products.
  destruct (assoc "name" (query req)); [ | reflexivity].
  destruct (negb _); [reflexivity | ].
  destruct (filter_try _ _); [reflexivity | ].
  destruct (len _ =? 0); reflexivity.
Qed.

Lemma get_product_reads (req : request) (products : store) :
  fst (get_product req products) = products.
Proof. unfold get_product. destruct (find _ _); reflexivity. Qed.

Lemma below_last (products : store) (p : product) :
  increasing products -> In p products -> id p < next_id products.
Proof.
  unfold increasing, next_id. revert p.
  induction products as [| x xs IH]; intros p S I; [contradiction | ].
  cbn [map] in S. apply StronglySorted_inv in S as [S F].
  destruct xs as [| y ys].
  - destruct I as [<- | []]. cbn. lia.
  - change (last_product (x :: y :: ys)) with (last_product (y :: ys)).
    destruct I as [<- | I].
    + assert (id x < id y) as L by (inversion F; assumption).
      specialize (IH y S (or_introl eq_refl)). lia.
    + exact (IH p S I).
Qed.

Lemma increasing_push (products : store) (p : product) :
  increasing products -> id p = next_id products ->
  increasing (products ++ [p]).
Proof.
  unfold increasing. intros S E.
  assert (Forall (fun q => id q < id p) products) as B.
  { apply Forall_forall. intros q I. rewrite E. apply below_last; assumption. }
  clear E. induction products as [| x xs IH]; cbn.
  - repeat constructor.
  - cbn in S. apply StronglySorted_inv in S as [S F].
    inversion B as [| ? ? Bx Bxs]; subst.
    constructor; [exact (IH S Bxs) | ].
    rewrite map_app. apply Forall_app. split; [exact F | ].
    repeat constructor. exact Bx.
Qed.

Lemma update_first_keeps_ids (f : product -> bool) (g : product -> product)
  (products : store) :
  (forall p, id (g p) = id p) ->
  map id (update_first f g products) = map id products.
Proof.
  intros G. induction products as [| x xs IH]; cbn; [reflexivity | ].
  destruct (f x); cbn; congruence.
Qed.

Lemma splice_one_within {A : Type} (i : nat) (xs : list A) (x : A) :
  In x (snd (splice_one i xs)) -> In x xs.
Proof.
  unfold splice_one; cbn [snd]. intros I.
  apply in_app_or in I as [I | I].
  - rewrite <- (firstn_skipn i xs). apply in_or_app. left. exact I.
  - rewrite <- (firstn_skipn (S i) xs). apply in_or_app. right. exact I.
Qed.

Lemma increasing_splice (i : nat) (products : store) :
  increasing products -> increasing (snd (splice_one i products)).
Proof.
  unfold increasing, splice_one; cbn [snd].
  revert i. induction products as [| x xs IH]; intros i S.
  - destruct i; cbn; constructor.
  - cbn [map] in S. apply StronglySorted_inv in S as [S F].
    destruct i as [| i]; [exact S | ].
    cbn [firstn skipn app map]. constructor; [exact (IH i S) | ].
    rewrite Forall_forall in *. intros n I.
    apply in_map_iff in I as (q & <- & I).
    apply F. apply in_map. exact (splice_one_within i xs q I).
Qed.

Lemma handle_keeps_increasing (req : request) (products : store) :
  increasing products -> increasing (final_store (handle req products)).
Proof.
  intros S. rewrite handle_respond.
  destruct (method req), (shape (path req)); cbn [respond].
  all: rewrite ?final_store_gate, ?final_store_answered_by,
         ?list_products_reads, ?search_products_reads, ?get_product_reads;
       try exact S.
  all: first
    [ apply increasing_push; [exact S | reflexivity]
    | unfold update_product; destruct (find _ _); [ | exact S];
      unfold increasing; cbn [fst];
      rewrite update_first_keeps_ids; [exact S | reflexivity]
    | unfold delete_product; destruct (findIndex _ _) as [i | ]; [ | exact S];
      exact (increasing_splice i products S) ].
Qed.

Lemma serve_keeps_increasing (reqs : list request) (products : store) :
  increasing products -> increasing (serve reqs products).
Proof.
  unfold serve. revert products.
  induction reqs as [| req reqs IH]; intros products S; cbn; [exact S | ].
  apply IH. apply handle_keeps_increasing. exact S.
Qed.

(** C5, as amended.  From a catalogue whose ids increase along the array, as
    the initial one, and after any sequence of requests, a create is
    answered 201 with a record appended whose id is strictly greater than
    every id in the catalogue at that time, and the ids still increase.
    Nothing is promised about ids handed out earlier and since deleted. *)
Theorem created_id_exceeds_stored_ids (reqs : list request)
  (hs : list (string * string)) (qs : list (string * qval)) (b : list (string * jsval))
  (products : store) :
  increasing products ->
  exists p,
    handle (client_request POST ["api"; "products"] hs qs b)
      (serve reqs products)
      = mkResult (serve reqs products ++ [p])
          (Sent (status_json 201 (OneProduct p))) [5; 35; 39; 135]%nat /\
    Forall (fun q => id q < id p) (serve reqs products) /\
    increasing (serve reqs products ++ [p]).
Proof.
  intros S. apply (serve_keeps_increasing reqs) in S.
  set (st := serve reqs products) in *.
  exists (mkProduct (next_id st) (property b "name") (property b "description")
            (property b "price") (property b "category")
            (property b "inStock")).
  repeat split.
  - apply Forall_forall. intros q I. apply below_last; assumption.
  - apply increasing_push; [exact S | reflexivity].
Qed.

(** The witness of [created_id_exceeds_stored_ids]: the initial catalogue
    after a create and the deletion of the record it made. *)
Lemma created_id_exceeds_stored_ids_witness :
  exists p,
    handle (client_request POST ["api"; "products"] [] [] pen_body)
      (serve [ client_request POST ["api"; "products"] [] [] pen_body;
               client_request DELETE ["api"; "products"; "6"] [] [] [] ]
         products0)
      = mkResult
          (serve [ client_request POST ["api"; "products"] [] [] pen_body;
                   client_request DELETE ["api"; "products"; "6"] [] [] [] ]
             products0 ++ [p])
          (Sent (status_json 201 (OneProduct p))) [5; 35; 39; 135]%nat /\
    Forall (fun q => id q < id p)
      (serve [ client_request POST ["api"; "products"] [] [] pen_body;
               client_request DELETE ["api"; "products"; "6"] [] [] [] ]
         products0) /\
    increasing
      (serve [ client_request POST ["api"; "products"] [] [] pen_body;
               client_request DELETE ["api"; "products"; "6"] [] [] [] ]
         products0 ++ [p]).
Proof.
  apply (created_id_exceeds_stored_ids
           [ client_request POST ["api"; "products"] [] [] pen_body;
             client_request DELETE ["api"; "products"; "6"] [] [] [] ]
           [] [] pen_body products0).
  unfold increasing. cbn. repeat constructor.
Defined.

(** The counterexample to C5 as stated: a create on the initial catalogue is
    assigned id 6; after that record is deleted, the next create is assigned
    id 6 again, which is not greater than every id assigned before. *)
Lemma id_is_reused_after_delete :
  reply (handle (client_request POST ["api"; "products"] [] [] pen_body)
           products0)
    = Sent (status_json 201 (OneProduct (pen 6))) /\
  reply (handle (client_request POST ["api"; "products"] [] [] pen_body)
           (serve [ client_request POST ["api"; "products"] [] [] pen_body;
                    client_request DELETE ["api"; "products"; "6"] [] [] [] ]
              products0))
    = Sent (status_json 201 (OneProduct (pen 6))).
Proof. split; reflexivity. Qed.

(** ** Search *)

Lemma prefix_splits (sub s : string) :
  String.prefix sub s = true <-> exists post, s = (sub ++ post)%string.
Proof.
  revert s. induction sub as [| c sub IH]; intros s.
  - split; [intros _; exists s; reflexivity | destruct s; reflexivity].
  - destruct s as [| d s]; cbn;
      [split; [discriminate | intros [? ?]; discriminate] | ].
    destruct (ascii_dec c d) as [<- | N].
    + rewrite IH. split; intros [post E]; exists post; congruence.
    + split; [discriminate | intros [post E]; congruence].
Qed.

(** [includes] decides containment as a substring. *)
Lemma includes_splits (s sub : string) :
  includes s sub = true <->
  exists pre post, s = (pre ++ sub ++ post)%string.
Proof.
  induction s as [| c s IH].
  - cbn [includes]. rewrite orb_false_r, prefix_splits. split.
    + intros [post E]. exists EmptyString, post. exact E.
    + intros (pre & post & E). destruct pre; [exists post; exact E | discriminate].
  - cbn [includes]. rewrite orb_true_iff, prefix_splits, IH. split.
    + intros [[post E] | (pre & post & E)].
      * exists EmptyString, post. exact E.
      * exists (String c pre), post. cbn. congruence.
    + intros (pre & post & E). destruct pre as [| d pre].
      * left. exists post. exact E.
      * right. exists pre, post. cbn in E. congruence.
Qed.

Lemma filter_try_total {A : Type} (f : A -> jserror + bool) (g : A -> bool)
  (xs : list A) :
  Forall (fun x => f x = inr (g x)) xs -> filter_try f xs = inr (filter g xs).
Proof.
  induction 1 as [| x xs E _ IH]; cbn; [reflexivity | ].
  rewrite E, IH. reflexivity.
Qed.

Lemma len_zero {A : Type} (xs : list A) :
  (len xs =? 0) = match xs with [] => true | _ => false end.
Proof. destruct xs; reflexivity. Qed.

(** C8, as amended.  On a catalogue whose names are strings,
    [GET /api/products/search] fails with a ValidationError (400) when the
    [name] parameter is absent or the empty string.  When it is a non-empty
    string, the records whose name contains it as a substring, letter case
    aside, are selected; no match fails with NotFound (404), and one or more
    matches are answered 200 [{count, results}] with [count] the length of
    [results].  When it is not a string (the parameter is repeated, or
    written with brackets), [name.toLowerCase] is not a function: on a
    catalogue with a record the request fails with a TypeError (500), and on
    an empty one with NotFound (404). *)
Theorem search_by_name (hs : list (string * string)) (qs : list (string * qval))
  (b : list (string * jsval)) (products : store) :
  Forall (fun p => is_string (name p) = true) products ->
  handle (client_request GET ["api"; "products"; "search"] hs qs b) products
    = match assoc "name" qs with
      | None | Some (QStr EmptyString) =>
          mkResult products
            (Sent (status_json 400
                     (ErrorEnvelope "error" "ValidationError"
                        "Please provide a search keyword")))
            [5; 35; 39; 111; 276]%nat
      | Some (QStr keyword) =>
          match filter (name_contains keyword) products with
          | [] =>
              mkResult products
                (Sent (status_json 404
                         (ErrorEnvelope "error" "NotFoundError"
                            "No products match your search")))
                [5; 35; 39; 111; 276]%nat
          | results =>
              mkResult products
                (Sent (status_json 200 (SearchHits (len results) results)))
                [5; 35; 39; 111]%nat
          end
      | Some (QArr _) | Some (QObj _) =>
          match products with
          | [] =>
              mkResult products
                (Sent (status_json 404
                         (ErrorEnvelope "error" "NotFoundError"
                            "No products match your search")))
                [5; 35; 39; 111; 276]%nat
          | _ :: _ =>
              mkResult products
                (Sent (status_json 500
                         (ErrorEnvelope "error" "TypeError"
                            "name.toLowerCase is not a function")))
                [5; 35; 39; 111; 276]%nat
          end
      end /\
  (forall keyword p,
     name_contains keyword p = true <->
     exists s pre post,
       name p = JStr s /\
       toLowerCase s = (pre ++ toLowerCase keyword ++ post)%string).
Proof.
  intros S. split.
  - rewrite handle_respond.
    change (shape (path (client_request GET ["api"; "products"; "search"] hs qs b)))
      with (Search "search").
    cbn [respond method client_request].
    unfold answered_by, asyncHandler, search_products.
    cbn [query with_params client_request].
    destruct (assoc "name" qs) as [[[| c keyword] | items | props] | ];
      try reflexivity.
    + cbn [truthy_query String.eqb negb].
      rewrite (filter_try_total _ (name_contains (String c keyword))).
      * rewrite len_zero.
        destruct (filter (name_contains (String c keyword)) products);
          reflexivity.
      * refine (Forall_impl _ _ S). intros p T.
        unfold name_includes, name_contains, lower_of.
        destruct (name p); try discriminate T. reflexivity.
    + cbn [truthy_query negb].
      destruct S as [| p products T _]; [reflexivity | ].
      cbn [filter_try]. unfold name_includes at 1, lower_of.
      destruct (name p); try discriminate T. reflexivity.
    + cbn [truthy_query negb].
      destruct S as [| p products T _]; [reflexivity | ].
      cbn [filter_try]. unfold name_includes at 1, lower_of.
      destruct (name p); try discriminate T. reflexivity.
  - intros keyword p. unfold name_contains. split.
    + destruct (name p) as [ | | | | s | | ]; try discriminate.
      intros I. apply includes_splits in I as (pre & post & E).
      exists s, pre, post. split; [reflexivity | exact E].
    + intros (s & pre & post & E & I). rewrite E.
      apply includes_splits. exists pre, post. exact I.
Qed.

(** The witness of [search_by_name]: the keyword [BOARD] finds the keyboard
    of the initial catalogue. *)
Lemma search_by_name_witness :
  handle (client_request GET ["api"; "products"; "search"] []
            [("name", QStr "BOARD")] []) products0
    = mkResult products0
        (Sent (status_json 200
                 (SearchHits 1 (filter (name_contains "BOARD") products0))))
        [5; 35; 39; 111]%nat.
Proof.
  apply (proj1 (search_by_name [] [("name", QStr "BOARD")] [] products0
                  ltac:(repeat constructor))).
Defined.

(** The counterexample to C8 as stated.  The [name] parameter is present and
    empty, every name contains the empty string, and the reply is the 400 of
    a missing parameter.  And [?name=lap&name=mouse] is a present parameter
    that selects nothing and is not answered 404: the two values arrive as an
    array, and the reply is the 500 of a TypeError. *)
Lemma empty_keyword_is_refused :
  assoc "name" [("name", QStr "")] = Some (QStr "") /\
  filter (name_contains "") products0 = products0 /\
  handle (client_request GET ["api"; "products"; "search"] []
            [("name", QStr "")] []) products0
    = mkResult products0
        (Sent (status_json 400
                 (ErrorEnvelope "error" "ValidationError"
                    "Please provide a search keyword")))
        [5; 35; 39; 111; 276]%nat /\
  handle (client_request GET ["api"; "products"; "search"] []
            [("name", QArr [QStr "lap"; QStr "mouse"])] []) products0
    = mkResult products0
        (Sent (status_json 500
                 (ErrorEnvelope "error" "TypeError"
                    "name.toLowerCase is not a function")))
        [5; 35; 39; 111; 276]%nat.
Proof. repeat split; reflexivity. Qed.

(** ** Listing *)

Lemma from_index_firstn_skipn {A : Type} (xs : list A) (i a b : Z) :
  from_index i a b xs
    = firstn (Z.to_nat (b - Z.max a i)) (skipn (Z.to_nat (a - i)) xs).
Proof.
  revert i. induction xs as [| x xs IH]; intros i.
  - cbn. rewrite skipn_nil, firstn_nil. reflexivity.
  - cbn [from_index]. rewrite IH.
    destruct (a <=? i) eqn:Lo; cbn [andb].
    + apply Z.leb_le in Lo.
      replace (Z.to_nat (a - i)) with O by lia.
      replace (Z.to_nat (a - (i + 1))) with O by lia.
      cbn [skipn].
      replace (Z.max a i) with i by lia.
      replace (Z.max a (i + 1)) with (i + 1) by lia.
      destruct (i <? b) eqn:Hi.
      * apply Z.ltb_lt in Hi.
        replace (Z.to_nat (b - i)) with (S (Z.to_nat (b - (i + 1)))) by lia.
        reflexivity.
      * apply Z.ltb_ge in Hi.
        replace (Z.to_nat (b - i)) with O by lia.
        replace (Z.to_nat (b - (i + 1))) with O by lia.
        reflexivity.
    + apply Z.leb_gt in Lo.
      replace (Z.to_nat (a - i)) with (S (Z.to_nat (a - (i + 1)))) by lia.
      cbn [skipn].
      replace (Z.max a (i + 1)) with (Z.max a i) by lia.
      reflexivity.
Qed.

(** For positions that are not negative, [slice] is the interval slice. *)
Lemma slice_is_interval {A : Type} (xs : list A) (a b : Z) :
  0 <= a -> 0 <= b -> slice xs a b = interval_slice xs a b.
Proof.
  intros Ha Hb. unfold interval_slice, slice, relative_index.
  rewrite from_index_firstn_skipn.
  replace (a <? 0) with false by (symmetry; apply Z.ltb_ge; lia).
  replace (b <? 0) with false by (symmetry; apply Z.ltb_ge; lia).
  replace (a - 0) with a by lia.
  replace (Z.max a 0) with a by lia.
  set (n := Z.of_nat (List.length xs)).
  destruct (Z.le_gt_cases n a) as [Far | Near].
  - rewrite !skipn_all2 by lia. rewrite !firstn_nil. reflexivity.
  - replace (Z.min a n) with a by lia.
    destruct (Z.le_gt_cases b n) as [In | Out].
    + replace (Z.min b n) with b by lia. reflexivity.
    + replace (Z.min b n) with n by lia.
      rewrite !firstn_all2; [reflexivity | | ]; rewrite length_skipn; lia.
Qed.

(** [ceil_div a b] is the least [t] with [a <= t * b], for positive [b]. *)
Lemma ceil_div_bounds (a b : Z) :
  0 < b -> (ceil_div a b - 1) * b < a <= ceil_div a b * b.
Proof.
  intros B. unfold ceil_div.
  pose proof (Z.div_mod (- a) b ltac:(lia)) as D.
  pose proof (Z.mod_pos_bound (- a) b B) as M.
  nia.
Qed.

(** An integer below [2 ^ 53] in size is a double. *)
Lemma to_double_exact (n : Z) : Z.abs n < 2 ^ 53 -> to_double n = Finite n.
Proof.
  intros H. unfold to_double, round_mantissa.
  replace (Z.abs n <? 2 ^ 53) with true by (symmetry; apply Z.ltb_lt; exact H).
  assert (2 ^ 53 <= 2 ^ 1024) as P by (apply Z.pow_le_mono_r; lia).
  replace (2 ^ 1024 <=? Z.abs n) with false
    by (symmetry; apply Z.leb_gt; apply Z.lt_le_trans with (2 ^ 53); assumption).
  destruct n; reflexivity.
Qed.

Lemma number_or_falsy (x d : jsnum) :
  d <> Finite 0 -> d <> NaN ->
  number_or x d <> Finite 0 /\ number_or x d <> NaN.
Proof.
  intros Z N. destruct x as [[| n | n] | | | ]; cbn; split;
    solve [assumption | discriminate].
Qed.

(** Within the integers a double holds, the arithmetic of the listing is
    that of the integers. *)
Lemma page_bounds_exact (p l : Z) :
  1 <= p -> 1 <= l -> p * l < 2 ^ 53 ->
  num_mul (num_sub (Finite p) (Finite 1)) (Finite l) = Finite ((p - 1) * l) /\
  num_add (Finite ((p - 1) * l)) (Finite l) = Finite (p * l).
Proof.
  intros P L B.
  assert (0 < 2 ^ 53) as T by reflexivity.
  unfold num_sub, num_add.
  rewrite to_double_exact by nia.
  unfold num_mul.
  rewrite !to_double_exact by nia.
  split; f_equal; ring.
Qed.

Lemma slice_of_finite {A : Type} (xs : list A) (a b : Z) :
  slice_of xs (Finite a) (Finite b) = slice xs a b.
Proof. reflexivity. Qed.

(** C7, as amended.  On a catalogue whose categories are strings,
    [GET /api/products] keeps all records when the [category] parameter is
    absent or the empty string, and the records whose category equals it,
    letter case aside, when it is a non-empty string.  When it is not a
    string (the parameter is repeated, or written with brackets),
    [req.query.category.toLowerCase] is not a function, and on a catalogue
    with a record the request fails with a TypeError (500).  [page] and
    [limit] are the numbers [parseInt] returns, an integer below [2 ^ 53] in
    size as it is written, and 1 and 2 when [parseInt] reads no number or
    zero; they are never zero or [NaN].  The reply is 200
    [{page, limit, totalPages, totalItems, products}] with [totalItems] the
    size of the kept set, [totalPages] the ceiling of [totalItems / limit],
    and [products] what [slice] returns between [(page - 1) * limit] and that
    plus [limit]: for [page] and [limit] from 1 on whose product is below
    [2 ^ 53], the records at the indices from [(page - 1) * limit] up to
    [page * limit] of the kept set, [totalPages] being the least number of
    pages that hold them all. *)
Theorem list_is_filtered_and_paged (hs : list (string * string))
  (qs : list (string * qval)) (b : list (string * jsval)) (products : store) :
  Forall (fun p => is_string (category p) = true) products ->
  let read k := parseInt (option_map query_text (assoc k qs)) in
  let page := number_or (parseInt_number (option_map query_text (assoc "page" qs)))
                (Finite 1) in
  let limit := number_or (parseInt_number (option_map query_text (assoc "limit" qs)))
                 (Finite 2) in
  let start := num_mul (num_sub page (Finite 1)) limit in
  let stop := num_add start limit in
  let listed results :=
    mkResult products
      (Sent (status_json 200
               (ListPage page limit (ceil_quotient (len results) limit)
                  (len results) (slice_of results start stop))))
      [5; 35; 39; 84]%nat in
  handle (client_request GET ["api"; "products"] hs qs b) products
    = match assoc "category" qs with
      | None | Some (QStr EmptyString) => listed products
      | Some (QStr c) => listed (filter (category_equals c) products)
      | Some (QArr _) | Some (QObj _) =>
          match products with
          | [] => listed []
          | _ :: _ =>
              mkResult products
                (Sent (status_json 500
                         (ErrorEnvelope "error" "TypeError"
                            "req.query.category.toLowerCase is not a function")))
                [5; 35; 39; 84; 276]%nat
          end
      end /\
  (read "page" = None \/ read "page" = Some 0 -> page = Finite 1) /\
  (read "limit" = None \/ read "limit" = Some 0 -> limit = Finite 2) /\
  (forall n, read "page" = Some n -> n <> 0 -> Z.abs n < 2 ^ 53 ->
             page = Finite n) /\
  (forall n, read "limit" = Some n -> n <> 0 -> Z.abs n < 2 ^ 53 ->
             limit = Finite n) /\
  page <> Finite 0 /\ page <> NaN /\ limit <> Finite 0 /\ limit <> NaN /\
  (forall (results : list product) (p l : Z),
     page = Finite p -> limit = Finite l ->
     1 <= p -> 1 <= l -> p * l < 2 ^ 53 ->
     slice_of results start stop
       = interval_slice results ((p - 1) * l) (p * l) /\
     exists t,
       ceil_quotient (len results) limit = Finite t /\
       (t - 1) * l < len results <= t * l).
Proof.
  intros S read page limit start stop listed.
  repeat match goal with |- _ /\ _ => split end.
  - rewrite handle_respond.
    change (shape (path (client_request GET ["api"; "products"] hs qs b)))
      with Collection.
    cbn [respond method client_request].
    unfold answered_by, asyncHandler, list_products, query_number.
    cbn [query with_params client_request].
    fold page. fold limit. fold start. fold stop.
    destruct (assoc "category" qs) as [[[| ch c] | items | props] | ];
      try reflexivity.
    + cbn [truthy_query String.eqb negb].
      rewrite (filter_try_total _ (category_equals (String ch c)));
        [reflexivity | ].
      refine (Forall_impl _ _ S). intros p T.
      unfold category_is, category_equals, lower_of.
      destruct (category p); try discriminate T. reflexivity.
    + cbn [truthy_query].
      destruct S as [| p products T _]; [reflexivity | ].
      cbn [filter_try]. unfold category_is at 1, lower_of.
      destruct (category p); try discriminate T. reflexivity.
    + cbn [truthy_query].
      destruct S as [| p products T _]; [reflexivity | ].
      cbn [filter_try]. unfold category_is at 1, lower_of.
      destruct (category p); try discriminate T. reflexivity.
  - subst page read. unfold parseInt_number. cbv beta.
    intros [P | P]; rewrite P; reflexivity.
  - subst limit read. unfold parseInt_number. cbv beta.
    intros [P | P]; rewrite P; reflexivity.
  - subst page read. unfold parseInt_number. cbv beta.
    intros n P N B. rewrite P, (to_double_exact n B).
    destruct n; [contradiction | reflexivity | reflexivity].
  - subst limit read. unfold parseInt_number. cbv beta.
    intros n P N B. rewrite P, (to_double_exact n B).
    destruct n; [contradiction | reflexivity | reflexivity].
  - apply number_or_falsy; discriminate.
  - apply number_or_falsy; discriminate.
  - apply number_or_falsy; discriminate.
  - apply number_or_falsy; discriminate.
  - intros results p l EP EL P L B. split.
    + subst stop start. rewrite EP, EL.
      destruct (page_bounds_exact p l P L B) as [E1 E2].
      rewrite E1, E2, slice_of_finite.
      apply slice_is_interval; nia.
    + exists (ceil_div (len results) l). rewrite EL. split.
      * unfold ceil_quotient. destruct l; [lia | reflexivity | lia].
      * apply ceil_div_bounds. lia.
Qed.

(** The witness of [list_is_filtered_and_paged]: page 2 of the initial
    catalogue, two records a page. *)
Lemma list_is_filtered_and_paged_witness :
  handle (client_request GET ["api"; "products"] []
            [("page", QStr "2"); ("limit", QStr "2")] []) products0
    = mkResult products0
        (Sent (status_json 200
                 (ListPage (Finite 2) (Finite 2) (Finite 3) 5
                    (firstn 2 (skipn 2 products0)))))
        [5; 35; 39; 84]%nat.
Proof.
  apply (proj1 (list_is_filtered_and_paged []
                  [("page", QStr "2"); ("limit", QStr "2")] [] products0
                  ltac:(repeat constructor))).
Defined.

(** The counterexample to C7 as stated.  With [category] supplied and empty
    no record has that category, yet all five are counted.  With [limit=-2]
    the interval from 0 to -2 holds no index, yet three records are
    returned, because [slice] counts a negative end from the end of the
    array.  With [category] supplied twice the two values arrive as an
    array, and the reply is the 500 of a TypeError.  And the limit
    9007199254740993 is read as the double next to it. *)
Lemma listing_departs_from_the_claim :
  (assoc "category" [("category", QStr "")] = Some (QStr "") /\
   filter (category_equals "") products0 = [] /\
   handle (client_request GET ["api"; "products"] []
             [("category", QStr "")] []) products0
     = mkResult products0
         (Sent (status_json 200
                  (ListPage (Finite 1) (Finite 2) (Finite 3) 5
                     (firstn 2 products0))))
         [5; 35; 39; 84]%nat) /\
  (interval_slice products0 0 (-2) = [] /\
   handle (client_request GET ["api"; "products"] []
             [("limit", QStr "-2")] []) products0
     = mkResult products0
         (Sent (status_json 200
                  (ListPage (Finite 1) (Finite (-2)) (Finite (-2)) 5
                     (firstn 3 products0))))
         [5; 35; 39; 84]%nat) /\
  handle (client_request GET ["api"; "products"] []
            [("category", QArr [QStr "Electronics"; QStr "Accessories"])] [])
    products0
    = mkResult products0
        (Sent (status_json 500
                 (ErrorEnvelope "error" "TypeError"
                    "req.query.category.toLowerCase is not a function")))
        [5; 35; 39; 84; 276]%nat /\
  (parseInt (Some "9007199254740993") = Some 9007199254740993 /\
   handle (client_request GET ["api"; "products"] []
             [("limit", QStr "9007199254740993")] []) products0
     = mkResult products0
         (Sent (status_json 200
                  (ListPage (Finite 1) (Finite 9007199254740992) (Finite 1) 5
                     products0)))
         [5; 35; 39; 84]%nat).
Proof. repeat split; reflexivity. Qed.

(** * Further properties of the handlers *)

(** ** The six live routes, each on its own *)

Lemma handle_list (hs : list (string * string)) (qs : list (string * qval)) (b : list (string * jsval))
  (products : store) :
  handle (list_request hs qs b) products
    = answered_by 84 (asyncHandler list_products) (list_request hs qs b) []
        products.
Proof. rewrite handle_respond. reflexivity. Qed.

Lemma handle_search (hs : list (string * string)) (qs : list (string * qval))
  (b : list (string * jsval)) (products : store) :
  handle (search_request hs qs b) products
    = answered_by 111 (asyncHandler search_products) (search_request hs qs b)
        [] products.
Proof. rewrite handle_respond. reflexivity. Qed.

Lemma handle_create (hs : list (string * string)) (qs : list (string * qval))
  (b : list (string * jsval)) (products : store) :
  handle (create_request hs qs b) products
    = mkResult (products ++ [created b products])
        (Sent (status_json 201 (OneProduct (created b products))))
        [5; 35; 39; 135]%nat.
Proof. rewrite handle_respond. reflexivity. Qed.

Lemma handle_lookup (seg : string) (hs : list (string * string)) (qs : list (string * qval))
  (b : list (string * jsval)) (products : store) :
  seg <> "" -> is_lit "search" seg = false ->
  handle (lookup_request seg hs qs b) products
    = mkResult products
        (Sent match find (has_id_of seg) products with
              | Some p => status_json 200 (OneProduct p)
              | None => product_not_found
              end)
        [5; 35; 39; 126]%nat.
Proof.
  intros N S. rewrite handle_respond.
  change (path (lookup_request seg hs qs b)) with ["api"; "products"; seg].
  rewrite (shape_of_item seg N), S.
  change (method (lookup_request seg hs qs b)) with GET.
  assert (respond GET (if is_lit "stats" seg then Statistics seg else Item seg)
            (lookup_request seg hs qs b) products
          = answered_by 126 get_product (lookup_request seg hs qs b)
              [("id", seg)] products) as R
    by (destruct (is_lit "stats" seg); reflexivity).
  rewrite R. unfold answered_by, get_product.
  change (find (has_param_id _) products) with (find (has_id_of seg) products).
  destruct (find (has_id_of seg) products); reflexivity.
Qed.

Lemma handle_update (seg : string) (hs : list (string * string)) (qs : list (string * qval))
  (b : list (string * jsval)) (products : store) :
  seg <> "" ->
  handle (update_request seg hs qs b) products
    = match find (has_id_of seg) products with
      | Some p =>
          mkResult (update_first (has_id_of seg) (patched b) products)
            (Sent (status_json 200 (OneProduct (patched b p))))
            [5; 35; 39; 150]%nat
      | None =>
          mkResult products (Sent product_not_found) [5; 35; 39; 150]%nat
      end.
Proof.
  intros N. rewrite handle_respond.
  change (path (update_request seg hs qs b)) with ["api"; "products"; seg].
  rewrite (shape_of_item seg N).
  change (method (update_request seg hs qs b)) with PUT.
  assert (respond PUT
            (if is_lit "search" seg then Search seg
             else if is_lit "stats" seg then Statistics seg else Item seg)
            (update_request seg hs qs b) products
          = answered_by 150 update_product (update_request seg hs qs b)
              [("id", seg)] products) as R
    by (destruct (is_lit "search" seg); [ | destruct (is_lit "stats" seg)];
        reflexivity).
  rewrite R. unfold answered_by, update_product.
  change (find (has_param_id _) products) with (find (has_id_of seg) products).
  destruct (find (has_id_of seg) products); reflexivity.
Qed.

Lemma find_index_splits (f : product -> bool) (products : store) (p : product) :
  find f products = Some p ->
  exists before after,
    products = before ++ p :: after /\
    Forall (fun q => f q = false) before /\
    f p = true /\
    findIndex f products = Some (List.length before) /\
    splice_one (List.length before) products = ([p], before ++ after).
Proof.
  induction products as [| x xs IH]; cbn [find]; [discriminate | ].
  destruct (f x) eqn:F; intros H.
  - injection H as <-. exists [], xs. cbn. rewrite F.
    repeat split; try reflexivity. constructor.
  - destruct (IH H) as (before & after & E & B & T & I & S).
    exists (x :: before), after. cbn [findIndex]. rewrite F, I.
    repeat split; try assumption; try reflexivity.
    + cbn. congruence.
    + constructor; assumption.
    + unfold splice_one in *. injection S as S1 S2.
      exact (f_equal2 pair S1 (f_equal (cons x) S2)).
Qed.

Lemma find_index_none (f : product -> bool) (products : store) :
  find f products = None -> findIndex f products = None.
Proof.
  induction products as [| x xs IH]; cbn; [reflexivity | ].
  destruct (f x); [discriminate | ]. intros H. rewrite (IH H). reflexivity.
Qed.

Lemma handle_delete (seg : string) (hs : list (string * string)) (qs : list (string * qval))
  (b : list (string * jsval)) (products : store) :
  seg <> "" ->
  handle (delete_request seg hs qs b) products
    = answered_by 167 delete_product (delete_request seg hs qs b)
        [("id", seg)] products.
Proof.
  intros N. rewrite handle_respond.
  change (path (delete_request seg hs qs b)) with ["api"; "products"; seg].
  rewrite (shape_of_item seg N).
  change (method (delete_request seg hs qs b)) with DELETE.
  destruct (is_lit "search" seg); [ | destruct (is_lit "stats" seg)];
    reflexivity.
Qed.

Lemma store_after_delete (seg : string) (hs : list (string * string)) (qs : list (string * qval))
  (b : list (string * jsval)) (products : store) :
  seg <> "" ->
  match find (has_id_of seg) products with
  | None => final_store (handle (delete_request seg hs qs b) products) = products
  | Some p =>
      exists before after,
        products = before ++ p :: after /\
        Forall (fun q => has_id_of seg q = false) before /\
        final_store (handle (delete_request seg hs qs b) products)
          = before ++ after
  end.
Proof.
  intros N. rewrite (handle_delete seg hs qs b products N).
  rewrite final_store_answered_by. unfold delete_product.
  change (findIndex (has_param_id _) products)
    with (findIndex (has_id_of seg) products).
  destruct (find (has_id_of seg) products) as [p | ] eqn:F.
  - destruct (find_index_splits _ _ _ F) as (before & after & E & B & _ & I & S).
    exists before, after. rewrite I, S. repeat split; assumption.
  - rewrite (find_index_none _ _ F). reflexivity.
Qed.

(** X3.  [DELETE /api/products/<seg>] removes the first record whose id is
    the number read from the segment, and nothing else: the reply is 200 with
    that record in [deletedProduct]; when no record has the id the reply is
    404 and the catalogue is unchanged.  No key is asked for. *)
Theorem delete_removes_the_first_match (seg : string)
  (hs : list (string * string)) (qs : list (string * qval)) (b : list (string * jsval))
  (products : store) :
  seg <> "" ->
  match find (has_id_of seg) products with
  | None =>
      handle (delete_request seg hs qs b) products
        = mkResult products (Sent product_not_found) [5; 35; 39; 167]%nat
  | Some p =>
      exists before after,
        products = before ++ p :: after /\
        Forall (fun q => has_id_of seg q = false) before /\
        handle (delete_request seg hs qs b) products
          = mkResult (before ++ after)
              (Sent (status_json 200
                       (Deleted "Product deleted successfully" [p])))
              [5; 35; 39; 167]%nat
  end.
Proof.
  intros N. rewrite (handle_delete seg hs qs b products N).
  unfold answered_by, delete_product.
  change (findIndex (has_param_id _) products)
    with (findIndex (has_id_of seg) products).
  destruct (find (has_id_of seg) products) as [p | ] eqn:F.
  - destruct (find_index_splits _ _ _ F) as (before & after & E & B & _ & I & S).
    exists before, after. rewrite I, S. repeat split; assumption.
  - rewrite (find_index_none _ _ F). reflexivity.
Qed.

(** The witness of [delete_removes_the_first_match]: record 5 leaves the
    initial catalogue. *)
Lemma delete_removes_the_first_match_witness :
  exists before after,
    products0 = before ++ monitor :: after /\
    Forall (fun q => has_id_of "5" q = false) before /\
    handle (delete_request "5" [] [] []) products0
      = mkResult (before ++ after)
          (Sent (status_json 200
                   (Deleted "Product deleted successfully" [monitor])))
          [5; 35; 39; 167]%nat.
Proof.
  exact (delete_removes_the_first_match "5" [] [] [] products0
           ltac:(discriminate)).
Defined.

(** ** Requests in sequence *)

Lemma has_id_of_true (seg : string) (p : product) :
  has_id_of seg p = true <-> parseInt_string seg = Some (id p).
Proof.
  unfold has_id_of, strict_eq_parsed.
  destruct (parseInt_string seg) as [n | ]; [ | split; discriminate].
  rewrite Z.eqb_eq. split; [intros -> | intros [= ->]]; reflexivity.
Qed.

Lemma find_app_none {A : Type} (f : A -> bool) (xs ys : list A) :
  find f xs = None -> find f (xs ++ ys) = find f ys.
Proof.
  induction xs as [| x xs IH]; cbn; [reflexivity | ].
  destruct (f x); [discriminate | exact IH].
Qed.

Lemma find_none_of_all {A : Type} (f : A -> bool) (xs : list A) :
  Forall (fun x => f x = false) xs -> find f xs = None.
Proof.
  induction 1 as [| x xs F _ IH]; cbn; [reflexivity | ].
  rewrite F. exact IH.
Qed.

Lemma increasing_after (before after : store) (p : product) :
  increasing (before ++ p :: after) -> Forall (fun q => id p < id q) after.
Proof.
  unfold increasing. induction before as [| x xs IH]; cbn [app map]; intros S.
  - apply StronglySorted_inv in S as [_ F].
    apply Forall_forall. intros q I. rewrite Forall_forall in F.
    apply F. apply in_map. exact I.
  - apply StronglySorted_inv in S as [S _]. exact (IH S).
Qed.

Lemma gone_after_delete (seg : string) (hs : list (string * string)) (qs : list (string * qval))
  (b : list (string * jsval)) (products : store) :
  increasing products -> seg <> "" ->
  find (has_id_of seg)
    (final_store (handle (delete_request seg hs qs b) products)) = None.
Proof.
  intros S N.
  pose proof (store_after_delete seg hs qs b products N) as D.
  destruct (find (has_id_of seg) products) as [p | ] eqn:F.
  - destruct D as (before & after & E & B & H). rewrite H.
    rewrite (find_app_none _ _ _ (find_none_of_all _ _ B)).
    apply find_none_of_all.
    apply find_holds in F. apply has_id_of_true in F.
    rewrite E in S. apply increasing_after in S.
    refine (Forall_impl _ _ S). intros q Q.
    destruct (has_id_of seg q) eqn:T; [ | reflexivity].
    apply has_id_of_true in T. rewrite F in T. injection T as T. lia.
  - rewrite D. exact F.
Qed.

(** X4.  On a catalogue whose ids increase along the array, and for a path
    segment that is not empty and is not [search] in any letter case (a GET
    of such a segment is a search), a record that has been deleted is gone:
    whatever the deletion replied, a lookup of the same segment afterwards
    is answered 404. *)
Theorem deleted_record_is_gone (seg : string)
  (hs hs' : list (string * string)) (qs qs' : list (string * qval)) (b b' : list (string * jsval))
  (products : store) :
  increasing products -> seg <> "" -> is_lit "search" seg = false ->
  handle (lookup_request seg hs' qs' b')
    (final_store (handle (delete_request seg hs qs b) products))
  = mkResult (final_store (handle (delete_request seg hs qs b) products))
      (Sent product_not_found) [5; 35; 39; 126]%nat.
Proof.
  intros S N L. rewrite (handle_lookup seg hs' qs' b' _ N L).
  rewrite (gone_after_delete seg hs qs b products S N). reflexivity.
Qed.

(** The witness of [deleted_record_is_gone]: record 3 of the initial
    catalogue. *)
Lemma deleted_record_is_gone_witness :
  handle (lookup_request "3" [] [] [])
    (final_store (handle (delete_request "3" [] [] []) products0))
  = mkResult (final_store (handle (delete_request "3" [] [] []) products0))
      (Sent product_not_found) [5; 35; 39; 126]%nat.
Proof.
  apply (deleted_record_is_gone "3" [] [] [] [] [] [] products0).
  - unfold increasing. cbn. repeat constructor.
  - discriminate.
  - reflexivity.
Defined.

Lemma parse_needs_a_character (seg : string) (n : Z) :
  parseInt_string seg = Some n -> seg <> "".
Proof. intros P ->. discriminate P. Qed.

(** X5.  On a catalogue whose ids increase along the array, a record just
    created is found under the id it was given: a lookup of a segment that
    reads as that id is answered 200 with the record. *)
Theorem created_record_is_found (seg : string)
  (hs hs' : list (string * string)) (qs qs' : list (string * qval)) (b b' : list (string * jsval))
  (products : store) :
  increasing products ->
  parseInt_string seg = Some (next_id products) ->
  is_lit "search" seg = false ->
  handle (lookup_request seg hs' qs' b')
    (final_store (handle (create_request hs qs b) products))
  = mkResult (products ++ [created b products])
      (Sent (status_json 200 (OneProduct (created b products))))
      [5; 35; 39; 126]%nat.
Proof.
  intros S P L. rewrite handle_create. cbn [final_store].
  rewrite (handle_lookup seg hs' qs' b' _ (parse_needs_a_character _ _ P) L).
  rewrite find_app_none.
  - cbn [find]. replace (has_id_of seg (created b products)) with true;
      [reflexivity | ].
    symmetry. apply has_id_of_true. exact P.
  - apply find_none_of_all. apply Forall_forall. intros q I.
    destruct (has_id_of seg q) eqn:T; [ | reflexivity].
    apply has_id_of_true in T. rewrite P in T. injection T as T.
    pose proof (below_last products q S I). lia.
Qed.

(** The witness of [created_record_is_found]: the pen becomes record 6 of
    the initial catalogue and is found at [/api/products/6]. *)
Lemma created_record_is_found_witness :
  handle (lookup_request "6" [] [] [])
    (final_store (handle (create_request [] [] pen_body) products0))
  = mkResult (products0 ++ [created pen_body products0])
      (Sent (status_json 200 (OneProduct (created pen_body products0))))
      [5; 35; 39; 126]%nat.
Proof.
  apply (created_record_is_found "6" [] [] [] [] pen_body [] products0).
  - unfold increasing. cbn. repeat constructor.
  - reflexivity.
  - reflexivity.
Defined.

Lemma find_update_first (f : product -> bool) (g : product -> product)
  (products : store) :
  (forall p, f (g p) = f p) ->
  find f (update_first f g products) = option_map g (find f products).
Proof.
  intros G. induction products as [| x xs IH]; cbn; [reflexivity | ].
  destruct (f x) eqn:F; cbn.
  - rewrite G, F. reflexivity.
  - rewrite F. exact IH.
Qed.

Lemma update_first_twice (f : product -> bool) (g : product -> product)
  (products : store) :
  (forall p, f (g p) = f p) -> (forall p, g (g p) = g p) ->
  update_first f g (update_first f g products) = update_first f g products.
Proof.
  intros G I. induction products as [| x xs IH]; cbn; [reflexivity | ].
  destruct (f x) eqn:F; cbn.
  - rewrite G, F, I. reflexivity.
  - rewrite F, IH. reflexivity.
Qed.

Lemma nullish_or_twice (v old : jsval) :
  nullish_or v (nullish_or v old) = nullish_or v old.
Proof. unfold nullish_or. destruct (is_nullish v); reflexivity. Qed.

Lemma patched_twice (b : list (string * jsval)) (p : product) :
  patched b (patched b p) = patched b p.
Proof.
  unfold patched. cbn [id name description price category inStock].
  rewrite !nullish_or_twice. reflexivity.
Qed.

(** X6.  For a path segment that is not empty and is not [search] in any
    letter case (a GET of such a segment is a search), a lookup after an
    update replies what the update replied: the patched record with 200, or
    404 when no record has the id. *)
Theorem lookup_after_update_agrees (seg : string)
  (hs hs' : list (string * string)) (qs qs' : list (string * qval)) (b b' : list (string * jsval))
  (products : store) :
  seg <> "" -> is_lit "search" seg = false ->
  reply (handle (lookup_request seg hs' qs' b')
           (final_store (handle (update_request seg hs qs b) products)))
  = reply (handle (update_request seg hs qs b) products).
Proof.
  intros N L. rewrite (handle_lookup seg hs' qs' b' _ N L).
  rewrite (handle_update seg hs qs b products N). cbn [reply].
  destruct (find (has_id_of seg) products) as [p | ] eqn:F; cbn [final_store reply].
  - rewrite find_update_first by reflexivity. rewrite F. reflexivity.
  - rewrite F. reflexivity.
Qed.

(** The witness of [lookup_after_update_agrees]: the price of record 1. *)
Lemma lookup_after_update_agrees_witness :
  reply (handle (lookup_request "1" [] [] [])
           (final_store (handle (update_request "1" [] []
                                   [("price", JNum 999)]) products0)))
  = reply (handle (update_request "1" [] [] [("price", JNum 999)]) products0).
Proof.
  apply (lookup_after_update_agrees "1" [] [] [] [] [("price", JNum 999)] []
           products0); [discriminate | reflexivity].
Defined.

(** X7.  An update is idempotent: the same [PUT] sent again finds the
    catalogue as the first one left it, leaves it so, and replies the same. *)
Theorem update_twice_is_update_once (seg : string)
  (hs : list (string * string)) (qs : list (string * qval)) (b : list (string * jsval))
  (products : store) :
  seg <> "" ->
  handle (update_request seg hs qs b)
    (final_store (handle (update_request seg hs qs b) products))
  = handle (update_request seg hs qs b) products.
Proof.
  intros N. rewrite !(handle_update seg hs qs b _ N).
  destruct (find (has_id_of seg) products) as [p | ] eqn:F; cbn [final_store].
  - rewrite find_update_first by reflexivity. rewrite F. cbn [option_map].
    rewrite update_first_twice by (reflexivity || apply patched_twice).
    rewrite patched_twice. reflexivity.
  - rewrite F. reflexivity.
Qed.

(** The witness of [update_twice_is_update_once]. *)
Lemma update_twice_is_update_once_witness :
  handle (update_request "2" [] [] [("inStock", JBool false)])
    (final_store (handle (update_request "2" [] []
                            [("inStock", JBool false)]) products0))
  = handle (update_request "2" [] [] [("inStock", JBool false)]) products0.
Proof.
  apply (update_twice_is_update_once "2" [] [] [("inStock", JBool false)]
           products0).
  discriminate.
Defined.

Lemma increasing_is_nodup (ids : list Z) :
  StronglySorted Z.lt ids -> NoDup ids.
Proof.
  induction 1 as [| n ids _ IH F]; constructor; [ | exact IH].
  intros I. rewrite Forall_forall in F. specialize (F n I). lia.
Qed.

(** X11.  Id uniqueness is an invariant of the application: from a
    catalogue whose ids increase along the array, whatever requests are
    served, the ids still increase and no two records share an id. *)
Theorem ids_stay_unique (reqs : list request) (products : store) :
  increasing products ->
  increasing (serve reqs products) /\ NoDup (map id (serve reqs products)).
Proof.
  intros S. apply (serve_keeps_increasing reqs) in S.
  split; [exact S | apply increasing_is_nodup; exact S].
Qed.

(** The witness of [ids_stay_unique]: two creates around a deletion. *)
Lemma ids_stay_unique_witness :
  NoDup (map id (serve [ create_request [] [] pen_body;
                         delete_request "2" [] [] [];
                         create_request [] [] [] ] products0)).
Proof.
  apply (ids_stay_unique [ create_request [] [] pen_body;
                           delete_request "2" [] [] [];
                           create_request [] [] [] ] products0).
  unfold increasing. cbn. repeat constructor.
Defined.

(** ** The two gates and the translator, on their own *)

(** X1.  [authenticate] lets a request through exactly when its
    [x-api-key] header is the configured key, character for character; every
    other request, with the header missing, empty or different, is answered
    401 with the fixed body, and [authenticate] never hands on an error. *)
Theorem authenticate_admits_exactly_the_key (req : request) :
  (authenticate req = Next <->
     assoc "x-api-key" (headers req) = Some VALID_API_KEY) /\
  (authenticate req <> Next -> authenticate req = Reply unauthorized) /\
  (forall e, authenticate req <> Raise e).
Proof.
  assert (assoc "x-api-key" (headers req) = Some VALID_API_KEY \/
          assoc "x-api-key" (headers req) <> Some VALID_API_KEY) as [K | K].
  { destruct (assoc "x-api-key" (headers req)) as [k | ]; [ | right; discriminate].
    destruct (String.eqb k VALID_API_KEY) eqn:E.
    - apply String.eqb_eq in E. left. congruence.
    - apply String.eqb_neq in E. right. congruence. }
  - rewrite (authenticate_with_key req K).
    repeat split; intros; congruence.
  - rewrite (authenticate_without_key req K).
    repeat split; intros; congruence.
Qed.

(** The witness of [authenticate_admits_exactly_the_key]. *)
Lemma authenticate_admits_exactly_the_key_witness :
  authenticate (client_request GET ["nope"] with_key [] []) = Next.
Proof.
  apply (proj2 (proj1 (authenticate_admits_exactly_the_key
                         (client_request GET ["nope"] with_key [] [])))).
  reflexivity.
Defined.

(** X2.  [validateProduct] lets a payload through exactly when name,
    description and category are truthy, price is a number and inStock is a
    boolean, so a price of 0 and an inStock of false pass; and it reports
    the first rule that fails: a missing field before a price that is not a
    number, and that before an inStock that is not a boolean. *)
Theorem validateProduct_verdicts (req : request) :
  let present :=
    (truthy (body_get req "name") && truthy (body_get req "description")
     && negb (is_nullish (body_get req "price"))
     && truthy (body_get req "category")
     && negb (is_nullish (body_get req "inStock")))%bool in
  (validateProduct req = Next <->
     truthy (body_get req "name") = true /\
     truthy (body_get req "description") = true /\
     is_number (body_get req "price") = true /\
     truthy (body_get req "category") = true /\
     is_boolean (body_get req "inStock") = true) /\
  (validateProduct req
     = Reply (status_json 400 (ErrorText "All product fields are required"))
   <-> present = false) /\
  (validateProduct req
     = Reply (status_json 400 (ErrorText "Price must be a number"))
   <-> present = true /\ is_number (body_get req "price") = false) /\
  (validateProduct req
     = Reply (status_json 400 (ErrorText "inStock must be boolean"))
   <-> present = true /\ is_number (body_get req "price") = true /\
       is_boolean (body_get req "inStock") = false).
Proof.
  intros present. subst present. split; [apply validateProduct_passes | ].
  unfold validateProduct.
  destruct (truthy (body_get req "name")),
           (truthy (body_get req "description")),
           (truthy (body_get req "category")),
           (body_get req "price"), (body_get req "inStock"); cbn.
  all: repeat split; intros; try discriminate; try reflexivity;
       repeat match goal with
         | H : _ /\ _ |- _ => destruct H
         end; try discriminate.
Qed.

(** The witness of [validateProduct_verdicts]: the pen passes. *)
Lemma validateProduct_verdicts_witness :
  validateProduct (create_request [] [] pen_body) = Next.
Proof.
  apply (proj2 (proj1 (validateProduct_verdicts
                         (create_request [] [] pen_body)))).
  repeat split.
Defined.





(** ** The application as a whole *)











Lemma update_product_keeps_ids (req : request) (products : store) :
  map id (fst (update_product req products)) = map id products.
Proof.
  unfold update_product. destruct (find _ _); [ | reflexivity].
  cbn [fst]. apply update_first_keeps_ids. reflexivity.
Qed.

Lemma delete_product_takes_one (req : request) (products : store) :
  fst (delete_product req products) = products \/
  exists before p after,
    products = before ++ p :: after /\
    fst (delete_product req products) = before ++ after.
Proof.
  unfold delete_product.
  destruct (find (has_param_id req) products) as [p | ] eqn:F.
  - right.
    destruct (find_index_splits _ _ _ F) as (before & after & E & _ & _ & I & S).
    exists before, p, after. rewrite I, S. split; [exact E | reflexivity].
  - left. rewrite (find_index_none _ _ F). reflexivity.
Qed.

(** X10.  What each verb can do to the catalogue, whatever the path,
    headers, query and body: a request that is not a POST, PUT or DELETE
    leaves it as it was; a POST leaves it or appends one record; a PUT keeps
    the ids in place; a DELETE leaves it or takes one record out. *)
Theorem verbs_and_the_catalogue (req : request) (products : store) :
  (method req <> POST -> method req <> PUT -> method req <> DELETE ->
     final_store (handle req products) = products) /\
  (method req = POST ->
     final_store (handle req products) = products \/
     exists p, final_store (handle req products) = products ++ [p]) /\
  (method req = PUT ->
     map id (final_store (handle req products)) = map id products) /\
  (method req = DELETE ->
     final_store (handle req products) = products \/
     exists before p after,
       products = before ++ p :: after /\
       final_store (handle req products) = before ++ after).
Proof.
  rewrite handle_respond.
  destruct (method req), (shape (path req)); cbn [respond].
  all: rewrite ?final_store_gate, ?final_store_answered_by,
         ?list_products_reads, ?search_products_reads, ?get_product_reads.
  all: repeat split; intros; try congruence; try discriminate;
       try (left; reflexivity).
  all: first
    [ right; eexists; reflexivity
    | apply update_product_keeps_ids
    | apply delete_product_takes_one ].
Qed.

(** The witness of [verbs_and_the_catalogue]: a [PATCH] changes nothing. *)
Lemma verbs_and_the_catalogue_witness :
  final_store (handle (client_request PATCH ["api"; "products"; "1"] [] []
                         [("price", JNum 1)]) products0) = products0.
Proof.
  apply (proj1 (verbs_and_the_catalogue
                  (client_request PATCH ["api"; "products"; "1"] [] []
                     [("price", JNum 1)]) products0)); discriminate.
Defined.



(** ** Pages *)

Lemma handle_list_typed (hs : list (string * string)) (qs : list (string * qval))
  (b : list (string * jsval)) (products : store) :
  Forall (fun p => is_string (category p) = true) products ->
  plain_parameter (assoc "category" qs) = true ->
  handle (list_request hs qs b) products
    = let results :=
        match assoc "category" qs with
        | Some (QStr (String ch c)) =>
            filter (category_equals (String ch c)) products
        | _ => products
        end in
      let page :=
        number_or (query_number (list_request hs qs b) "page") (Finite 1) in
      let limit :=
        number_or (query_number (list_request hs qs b) "limit") (Finite 2) in
      let start := num_mul (num_sub page (Finite 1)) limit in
      mkResult products
        (Sent (status_json 200
                 (ListPage page limit (ceil_quotient (len results) limit)
                    (len results)
                    (slice_of results start (num_add start limit)))))
        [5; 35; 39; 84]%nat.
Proof.
  intros S P. rewrite handle_list.
  unfold answered_by, asyncHandler, list_products, query_number.
  cbn [query with_params list_request client_request].
  destruct (assoc "category" qs) as [[[| ch c] | items | props] | ];
    try reflexivity; try discriminate P.
  cbn [truthy_query String.eqb negb].
  rewrite (filter_try_total _ (category_equals (String ch c)));
    [reflexivity | ].
  refine (Forall_impl _ _ S). intros p T.
  unfold category_is, category_equals, lower_of.
  destruct (category p); try discriminate T. reflexivity.
Qed.

Lemma len_slice {A : Type} (xs : list A) (a b : Z) :
  0 <= a -> a <= b ->
  len (slice xs a b) = Z.min (b - a) (Z.max 0 (len xs - a)).
Proof.
  intros Ha Hb. unfold slice, relative_index, len.
  replace (a <? 0) with false by (symmetry; apply Z.ltb_ge; lia).
  replace (b <? 0) with false by (symmetry; apply Z.ltb_ge; lia).
  rewrite length_firstn, length_skipn. lia.
Qed.

Lemma len_positive {A : Type} (xs : list A) : 0 < len xs <-> xs <> [].
Proof.
  unfold len. destruct xs; cbn [List.length]; split; intros H;
    try lia; try congruence; try discriminate.
Qed.

(** X12.  On a catalogue whose categories are strings, with a [category]
    parameter that is absent or a string, and with a page and a limit from 1
    on whose product is below [2 ^ 53], a page of [GET /api/products] holds
    at most [limit] records, exactly those left from [(page - 1) * limit]
    on; it holds at least one exactly when the page is no greater than
    [totalPages]; and [totalPages] is 0 exactly when there is no item. *)
Theorem pages_are_bounded (hs : list (string * string)) (qs : list (string * qval))
  (b : list (string * jsval)) (products : store) (page limit : Z) :
  Forall (fun p => is_string (category p) = true) products ->
  plain_parameter (assoc "category" qs) = true ->
  number_or (query_number (list_request hs qs b) "page") (Finite 1)
    = Finite page ->
  number_or (query_number (list_request hs qs b) "limit") (Finite 2)
    = Finite limit ->
  1 <= page -> 1 <= limit -> page * limit < 2 ^ 53 ->
  exists totalPages totalItems paginated,
    handle (list_request hs qs b) products
      = mkResult products
          (Sent (status_json 200
                   (ListPage (Finite page) (Finite limit) (Finite totalPages)
                      totalItems paginated)))
          [5; 35; 39; 84]%nat /\
    len paginated = Z.min limit (Z.max 0 (totalItems - (page - 1) * limit)) /\
    (paginated <> [] <-> page <= totalPages) /\
    (totalPages = 0 <-> totalItems = 0) /\
    0 <= totalPages <= totalItems.
Proof.
  intros S C EP EL P L B.
  rewrite (handle_list_typed hs qs b products S C). cbv zeta.
  rewrite EP, EL.
  set (results := match assoc "category" qs with
                  | Some (QStr (String ch c)) =>
                      filter (category_equals (String ch c)) products
                  | _ => products
                  end).
  destruct (page_bounds_exact page limit P L B) as [E1 E2].
  rewrite E1, E2, slice_of_finite.
  replace (ceil_quotient (len results) (Finite limit))
    with (Finite (ceil_div (len results) limit))
    by (unfold ceil_quotient; destruct limit; [lia | reflexivity | lia]).
  do 3 eexists. split; [reflexivity | ].
  pose proof (ceil_div_bounds (len results) limit ltac:(lia)) as D.
  assert (0 <= len results) as N by (unfold len; lia).
  assert (len (slice results ((page - 1) * limit) (page * limit))
          = Z.min limit (Z.max 0 (len results - (page - 1) * limit))) as E.
  { rewrite len_slice by nia. f_equal. lia. }
  repeat split.
  - exact E.
  - intros H. apply len_positive in H. rewrite E in H. nia.
  - intros H. apply len_positive. rewrite E. nia.
  - nia.
  - nia.
  - nia.
  - nia.
Qed.

(** The witness of [pages_are_bounded]: the third page of the initial
    catalogue, two records a page. *)
Lemma pages_are_bounded_witness :
  exists totalPages totalItems paginated,
    handle (list_request [] [("page", QStr "3")] []) products0
      = mkResult products0
          (Sent (status_json 200
                   (ListPage (Finite 3) (Finite 2) (Finite totalPages)
                      totalItems paginated)))
          [5; 35; 39; 84]%nat /\
    len paginated = Z.min 2 (Z.max 0 (totalItems - (3 - 1) * 2)) /\
    (paginated <> [] <-> 3 <= totalPages) /\
    (totalPages = 0 <-> totalItems = 0) /\
    0 <= totalPages <= totalItems.
Proof.
  apply (pages_are_bounded [] [("page", QStr "3")] [] products0 3 2).
  - repeat constructor.
  - reflexivity.
  - reflexivity.
  - reflexivity.
  - lia.
  - lia.
  - reflexivity.
Defined.

(** ** Letter case *)

Lemma truthy_lower (s t : string) :
  toLowerCase s = toLowerCase t ->
  truthy_query (Some (QStr s)) = truthy_query (Some (QStr t)).
Proof.
  intros E. destruct s as [| c s], t as [| d t]; try reflexivity;
    discriminate E.
Qed.

(** X13.  A search does not tell letter case apart in the keyword: two
    keywords with the same lower-case form get the same reply, on any
    catalogue. *)
Theorem search_ignores_keyword_case (k1 k2 : string)
  (hs : list (string * string)) (qs : list (string * qval)) (b : list (string * jsval))
  (products : store) :
  toLowerCase k1 = toLowerCase k2 ->
  handle (search_request hs (("name", QStr k1) :: qs) b) products
    = handle (search_request hs (("name", QStr k2) :: qs) b) products.
Proof.
  intros E. rewrite !handle_search.
  unfold answered_by, asyncHandler, search_products.
  cbn [query with_params search_request client_request assoc String.eqb
         Ascii.eqb Bool.eqb].
  rewrite (truthy_lower k1 k2 E).
  unfold name_includes. rewrite E. reflexivity.
Qed.

(** The witness of [search_ignores_keyword_case]. *)
Lemma search_ignores_keyword_case_witness :
  handle (search_request [] [("name", QStr "BOARD")] []) products0
    = handle (search_request [] [("name", QStr "board")] []) products0.
Proof.
  apply (search_ignores_keyword_case "BOARD" "board" [] [] [] products0).
  reflexivity.
Defined.

(** X16.  The category filter does not tell letter case apart in the
    parameter: two values with the same lower-case form get the same reply,
    on any catalogue. *)
Theorem listing_ignores_category_case (c1 c2 : string)
  (hs : list (string * string)) (qs : list (string * qval)) (b : list (string * jsval))
  (products : store) :
  toLowerCase c1 = toLowerCase c2 ->
  handle (list_request hs (("category", QStr c1) :: qs) b) products
    = handle (list_request hs (("category", QStr c2) :: qs) b) products.
Proof.
  intros E. rewrite !handle_list.
  unfold answered_by, asyncHandler, list_products.
  cbn [query with_params list_request client_request assoc String.eqb
         Ascii.eqb Bool.eqb].
  rewrite (truthy_lower c1 c2 E).
  unfold category_is. rewrite E. reflexivity.
Qed.

(** The witness of [listing_ignores_category_case]. *)
Lemma listing_ignores_category_case_witness :
  handle (list_request [] [("category", QStr "ELECTRONICS")] []) products0
    = handle (list_request [] [("category", QStr "electronics")] []) products0.
Proof.
  apply (listing_ignores_category_case "ELECTRONICS" "electronics" [] [] []
           products0).
  reflexivity.
Defined.

(** ** Fields of the wrong type *)

Lemma filter_try_fails {A : Type} (f : A -> jserror + bool) (xs : list A) :
  Exists (fun x => exists e, f x = inl e) xs ->
  exists x e, In x xs /\ f x = inl e /\ filter_try f xs = inl e.
Proof.
  induction xs as [| x xs IH]; intros H; [inversion H | ].
  cbn [filter_try].
  destruct (f x) as [e | keep] eqn:F.
  - exists x, e. repeat split; [left; reflexivity | exact F].
  - assert (Exists (fun x => exists e, f x = inl e) xs) as T.
    { inversion H as [? ? [e E] | ? ? T]; subst; [congruence | exact T]. }
    destruct (IH T) as (y & e & I & Y & R).
    exists y, e. rewrite R. repeat split; [right; exact I | exact Y].
Qed.

Lemma lower_of_fails (what : string) (v : jsval) :
  what <> "" -> is_string v = false ->
  exists message,
    lower_of what v = inl (TypeError message) /\ message <> "".
Proof.
  intros W T. unfold lower_of.
  destruct v; try discriminate T; eexists; (split; [reflexivity | ]);
    try discriminate.
  all: destruct what; [contradiction | discriminate].
Qed.

Lemma translate_type_error (message : string) :
  message <> "" ->
  error_translator (TypeError message)
    = inr (status_json 500 (ErrorEnvelope "error" "TypeError" message)).
Proof.
  intros M. unfold error_translator, send, translate_error, TypeError.
  cbn [err_name err_message statusCode].
  apply String.eqb_neq in M. rewrite M. reflexivity.
Qed.

(** X17.  One record whose category is not a string breaks the filtered
    listing: with a non-empty [category] parameter the reply is 500 with
    [errorType] "TypeError", whatever the parameter, and the catalogue is
    unchanged.  The unvalidated create of line 135 stores such records. *)
Theorem untyped_category_breaks_filtering (c : string)
  (hs : list (string * string)) (qs : list (string * qval)) (b : list (string * jsval))
  (products : store) :
  c <> "" ->
  Exists (fun p => is_string (category p) = false) products ->
  is_type_error_reply
    (reply (handle (list_request hs (("category", QStr c) :: qs) b) products)) /\
  final_store (handle (list_request hs (("category", QStr c) :: qs) b) products)
    = products.
Proof.
  intros C X. rewrite handle_list. split.
  - unfold answered_by, asyncHandler, list_products.
    cbn [query with_params list_request client_request assoc String.eqb
           Ascii.eqb Bool.eqb].
    replace (truthy_query (Some (QStr c))) with true
      by (destruct c; [contradiction | reflexivity]).
    destruct (filter_try_fails (category_is (QStr c)) products) as (p & e & _ & P & F).
    { refine (Exists_impl _ _ X). intros p T. unfold category_is.
      destruct (lower_of_fails "p.category" (category p) ltac:(discriminate) T)
        as (message & E & _).
      rewrite E. eexists. reflexivity. }
    rewrite F. unfold translated. cbn [reply].
    unfold category_is in P.
    destruct (category p) eqn:K; cbn in P; try discriminate P;
      injection P as <-; eexists; rewrite translate_type_error;
      first [reflexivity | discriminate].
  - rewrite final_store_answered_by. apply list_products_reads.
Qed.

(** The witness of [untyped_category_breaks_filtering]: after a create with
    the empty body, filtering by category fails. *)
Lemma untyped_category_breaks_filtering_witness :
  is_type_error_reply
    (reply (handle (list_request [] [("category", QStr "Electronics")] [])
              (final_store (handle (create_request [] [] []) products0)))).
Proof.
  apply (untyped_category_breaks_filtering "Electronics" [] [] []
           (final_store (handle (create_request [] [] []) products0))).
  - discriminate.
  - rewrite handle_create. cbn [final_store].
    apply Exists_app. right. constructor. reflexivity.
Defined.

(** X18.  One record whose name is not a string breaks every search: with
    a non-empty [name] parameter the reply is 500 with [errorType]
    "TypeError", whatever the keyword, and the catalogue is unchanged. *)
Theorem untyped_name_breaks_search (k : string)
  (hs : list (string * string)) (qs : list (string * qval)) (b : list (string * jsval))
  (products : store) :
  k <> "" ->
  Exists (fun p => is_string (name p) = false) products ->
  is_type_error_reply
    (reply (handle (search_request hs (("name", QStr k) :: qs) b) products)) /\
  final_store (handle (search_request hs (("name", QStr k) :: qs) b) products)
    = products.
Proof.
  intros K X. rewrite handle_search. split.
  - unfold answered_by, asyncHandler, search_products.
    cbn [query with_params search_request client_request assoc String.eqb
           Ascii.eqb Bool.eqb].
    replace (truthy_query (Some (QStr k))) with true
      by (destruct k; [contradiction | reflexivity]).
    cbn [negb].
    destruct (filter_try_fails (name_includes (QStr k)) products) as (p & e & _ & P & F).
    { refine (Exists_impl _ _ X). intros p T. unfold name_includes.
      destruct (lower_of_fails "p.name" (name p) ltac:(discriminate) T)
        as (message & E & _).
      rewrite E. eexists. reflexivity. }
    rewrite F. unfold translated. cbn [reply].
    unfold name_includes in P.
    destruct (name p) eqn:N; cbn in P; try discriminate P;
      injection P as <-; eexists; rewrite translate_type_error;
      first [reflexivity | discriminate].
  - rewrite final_store_answered_by. apply search_products_reads.
Qed.

(** The witness of [untyped_name_breaks_search]: after a create with the
    empty body, every search fails. *)
Lemma untyped_name_breaks_search_witness :
  is_type_error_reply
    (reply (handle (search_request [] [("name", QStr "lap")] [])
              (final_store (handle (create_request [] [] []) products0)))).
Proof.
  apply (untyped_name_breaks_search "lap" [] [] []
           (final_store (handle (create_request [] [] []) products0))).
  - discriminate.
  - rewrite handle_create. cbn [final_store].
    apply Exists_app. right. constructor. reflexivity.
Defined.

(** ** The statistics handler *)

Lemma total_count_bump (k : string) (acc : list (string * Z)) :
  total_count (bump k acc) = total_count acc + 1.
Proof.
  unfold total_count. induction acc as [| [k' n] acc IH]; cbn; [reflexivity | ].
  destruct (String.eqb k k'); cbn; lia.
Qed.

Lemma total_count_fold (products : store) (acc : list (string * Z)) :
  total_count
    (fold_left (fun a p => bump (property_key (category p)) a) products acc)
  = total_count acc + len products.
Proof.
  revert acc. induction products as [| p products IH]; intros acc.
  - unfold len. cbn [fold_left List.length]. lia.
  - cbn [fold_left]. rewrite IH, total_count_bump. unfold len.
    cbn [List.length]. lia.
Qed.

Lemma count_category_plain (s : string) (products : store) :
  Forall plain_category products ->
  count_category s products = records_in_category s products.
Proof.
  unfold count_category, records_in_category. intros P. f_equal.
  induction P as [| p products (t & T & _) _ IH]; cbn [filter];
    [reflexivity | ].
  rewrite T, IH. reflexivity.
Qed.

(** X15.  The statistics handler of line 178, on a catalogue whose
    categories are strings that name no member of [Object.prototype]:
    [totalProducts] is the number of records, the counts of
    [countByCategory] add up to it, and a category is a key exactly when
    some record has it, with the number of those records as its count. *)
Theorem statistics_add_up (req : request) (products : store) :
  Forall plain_category products ->
  exists table,
    asyncHandler product_stats req products
      = (products, Done (status_json 200 (Stats (len products) table))) /\
    total_count table = len products /\
    forall s,
      assoc s table =
        if records_in_category s products =? 0 then None
        else Some (records_in_category s products).
Proof.
  intros P. exists (count_by_category products). repeat split.
  - unfold count_by_category. rewrite total_count_fold. reflexivity.
  - intros s. unfold count_by_category.
    rewrite assoc_fold_bump, (count_category_plain s products P). reflexivity.
Qed.

(** The witness of [statistics_add_up]: the initial catalogue has three
    records in Electronics and two in Accessories. *)
Lemma statistics_add_up_witness :
  exists table,
    asyncHandler product_stats (list_request [] [] []) products0
      = (products0, Done (status_json 200 (Stats 5 table))) /\
    total_count table = 5 /\
    forall s,
      assoc s table =
        if records_in_category s products0 =? 0 then None
        else Some (records_in_category s products0).
Proof.
  apply (statistics_add_up (list_request [] [] []) products0).
  repeat constructor;
    (eexists; split; [reflexivity | ];
     cbn; intros H; repeat (destruct H as [H | H]; [discriminate H | ]);
     exact H).
Defined.

(** ** Edges of update and delete, and the reach of the gate *)

Lemma handle_delete_none (seg : string) (hs : list (string * string)) (qs : list (string * qval))
  (b : list (string * jsval)) (products : store) :
  seg <> "" -> find (has_id_of seg) products = None ->
  handle (delete_request seg hs qs b) products
    = mkResult products (Sent product_not_found) [5; 35; 39; 167]%nat.
Proof.
  intros N F. rewrite (handle_delete seg hs qs b products N).
  unfold answered_by, delete_product.
  change (findIndex (has_param_id _) products)
    with (findIndex (has_id_of seg) products).
  rewrite (find_index_none _ _ F). reflexivity.
Qed.

(** X20.  On a catalogue whose ids increase along the array, a deletion
    sent a second time finds nothing: it is answered 404 and leaves the
    catalogue as the first one left it. *)
Theorem second_delete_finds_nothing (seg : string)
  (hs : list (string * string)) (qs : list (string * qval)) (b : list (string * jsval))
  (products : store) :
  increasing products -> seg <> "" ->
  handle (delete_request seg hs qs b)
    (final_store (handle (delete_request seg hs qs b) products))
  = mkResult (final_store (handle (delete_request seg hs qs b) products))
      (Sent product_not_found) [5; 35; 39; 167]%nat.
Proof.
  intros S N. apply (handle_delete_none seg hs qs b _ N).
  apply gone_after_delete; assumption.
Qed.

(** The witness of [second_delete_finds_nothing]: record 1 of the initial
    catalogue. *)
Lemma second_delete_finds_nothing_witness :
  handle (delete_request "1" [] [] [])
    (final_store (handle (delete_request "1" [] [] []) products0))
  = mkResult (final_store (handle (delete_request "1" [] [] []) products0))
      (Sent product_not_found) [5; 35; 39; 167]%nat.
Proof.
  apply (second_delete_finds_nothing "1" [] [] [] products0).
  - unfold increasing. cbn. repeat constructor.
  - discriminate.
Defined.

Lemma update_first_same (f : product -> bool) (g : product -> product)
  (products : store) :
  (forall p, g p = p) -> update_first f g products = products.
Proof.
  intros G. induction products as [| x xs IH]; cbn; [reflexivity | ].
  destruct (f x); [rewrite G | rewrite IH]; reflexivity.
Qed.

Lemma patched_without_fields (b : list (string * jsval)) (p : product) :
  Forall (fun k => is_nullish (property b k) = true)
    ["name"; "description"; "price"; "category"; "inStock"] ->
  patched b p = p.
Proof.
  intros F.
  inversion F as [| ? ? F1 F']; subst. inversion F' as [| ? ? F2 F'']; subst.
  inversion F'' as [| ? ? F3 G]; subst. inversion G as [| ? ? F4 G']; subst.
  inversion G' as [| ? ? F5 _]; subst.
  destruct p as [i n d pr c s]. unfold patched, nullish_or.
  cbn [id name description price category inStock].
  rewrite F1, F2, F3, F4, F5. reflexivity.
Qed.

(** X19.  An update that supplies none of the five fields, each of them
    absent or null, changes nothing: the catalogue is as it was, and the
    reply is still 200 with the record found, or 404 when there is none. *)
Theorem update_without_fields_changes_nothing (seg : string)
  (hs : list (string * string)) (qs : list (string * qval)) (b : list (string * jsval))
  (products : store) :
  seg <> "" ->
  Forall (fun k => is_nullish (property b k) = true)
    ["name"; "description"; "price"; "category"; "inStock"] ->
  handle (update_request seg hs qs b) products
    = mkResult products
        (Sent match find (has_id_of seg) products with
              | Some p => status_json 200 (OneProduct p)
              | None => product_not_found
              end)
        [5; 35; 39; 150]%nat.
Proof.
  intros N F. rewrite (handle_update seg hs qs b products N).
  destruct (find (has_id_of seg) products) as [p | ]; [ | reflexivity].
  rewrite (patched_without_fields b p F).
  rewrite update_first_same by (intros q; apply patched_without_fields; exact F).
  reflexivity.
Qed.

(** The witness of [update_without_fields_changes_nothing]: a body that
    names a null price and an unknown key. *)
Lemma update_without_fields_changes_nothing_witness :
  handle (update_request "3" [] [] [("price", JNull); ("colour", JStr "red")])
    products0
  = mkResult products0
      (Sent match find (has_id_of "3") products0 with
            | Some p => status_json 200 (OneProduct p)
            | None => product_not_found
            end)
      [5; 35; 39; 150]%nat.
Proof.
  apply (update_without_fields_changes_nothing "3" [] []
           [("price", JNull); ("colour", JStr "red")] products0).
  - discriminate.
  - repeat constructor.
Defined.

(** X21.  [authenticate] runs for a request exactly when no registration
    matches it: a request that any route of the file matches is served
    without the layer of line 224 having run. *)
Theorem gate_runs_only_when_unmatched (req : request) (products : store) :
  In 224%nat (visited (handle req products)) <-> matching_routes req = [].
Proof.
  rewrite handle_respond, matching_routes_accepts.
  destruct (method req), (shape (path req)); cbn [respond].
  all: match goal with
       | |- context [answered_by ?n ?h ?r ?ps ?st] =>
           destruct (visited_answered_by n h r ps st) as [E | E]; rewrite E
       | |- context [gate ?r ?st] =>
           destruct (visited_gate r st) as [E | E]; rewrite E
       end.
  all: cbn; split; intros H;
       first [ reflexivity
             | discriminate H
             | intuition discriminate
             | tauto ].
Qed.

(** The witness of [gate_runs_only_when_unmatched]: [GET /nope]. *)
Lemma gate_runs_only_when_unmatched_witness :
  In 224%nat (visited (handle (client_request GET ["nope"] [] [] []) products0)).
Proof.
  apply (proj2 (gate_runs_only_when_unmatched
                  (client_request GET ["nope"] [] [] []) products0)).
  reflexivity.
Defined.
